(** * ml-on-gcp: the R/BigQuery EDA notebook and the MLflow training manifest

    A shallow embedding of the two tutorial artifacts of the repository:

    - [tutorials/R/01_EDA-with-R-and-BigQuery.ipynb]: the R code cells, i.e.
      the query template, its [sprintf]/[paste] templating, the SQL of the
      base query and of the train/eval split queries, the CSV export and the
      sequence of external calls the notebook issues;
    - [tutorials/tensorflow/mlflow_gcp/docker/MLproject]: the parameter
      declarations and the command template.

    R and BigQuery built-ins used by the notebook ([sprintf], [paste],
    [write.table], [system], [CAST], [ABS], [MOD], ...) are modelled with their
    documented behaviour, restricted to the way the notebook calls them. *)

From Stdlib Require Import ZArith List Bool Lia Ascii String Permutation.
From Stdlib Require Import Decimal DecimalString DecimalZ.
From Stdlib Require Hexadecimal HexadecimalString.
From Stdlib Require Import PrimFloat.
Import ListNotations.

#[local] Open Scope string_scope.
#[local] Open Scope Z_scope.

(* ================================================================== *)
(** * R character vectors of length one and the string built-ins      *)
(* ================================================================== *)

Module R.

(** The R values that the notebook passes to [sprintf] and [paste]: character
    strings, whole-number doubles such as [sample_size <- 10000], and
    integers such as the [nrow] counts. *)
Inductive rvalue : Type :=
| RChr (s : string)
| RNum (n : Z)
| RInt (n : Z).

(** Decimal numeral of the absolute value of a whole number. *)
Definition numeral (n : Z) : string :=
  NilZero.string_of_uint (N.to_uint (Z.abs_N n)).

(** Remove the trailing ["0"] characters of a digit string (its significant
    digits, when the string is the numeral of a non-zero whole number). *)
Fixpoint strip_zeros (s : string) : string :=
  match s with
  | EmptyString => EmptyString
  | String c rest =>
      match strip_zeros rest with
      | EmptyString => if Ascii.eqb c "0" then EmptyString else String c EmptyString
      | rest' => String c rest'
      end
  end.

(** Two-digit exponent, as R prints it after [e+]. *)
Definition exponent2 (e : nat) : string :=
  let t := numeral (Z.of_nat e) in
  if Nat.ltb e 10 then String "0" t else t.

(** Scientific notation of a whole number given its numeral [digits]:
    first significant digit, then ["."] and the remaining significant digits
    when there are any, then [e+XX]. *)
Definition scientific (digits : string) : string :=
  let e := Nat.pred (String.length digits) in
  match strip_zeros digits with
  | EmptyString => digits
  | String c EmptyString => String c ("e+" ++ exponent2 e)
  | String c more => String c ("." ++ more ++ "e+" ++ exponent2 e)
  end.

(** [as.character] on a whole-number double (with the default
    [options(scipen = 0)]): R formats the number with up to 15 significant
    digits both in fixed and in scientific notation and keeps the fixed
    notation unless it is wider.  This definition is the rule for
    [|n| < 10^15], where the numeral of [n] is exact; the notebook only ever
    formats [sample_size] this way. *)
Definition as_character_num (n : Z) : string :=
  let digits := numeral n in
  let sci := scientific digits in
  let body :=
    if Nat.leb (String.length digits) (String.length sci) then digits else sci in
  if n <? 0 then String "-" body else body.

(** [as.character]; an integer is always written in fixed notation. *)
Definition as_character (v : rvalue) : string :=
  match v with
  | RChr s => s
  | RNum n => as_character_num n
  | RInt n => NilZero.string_of_int (Z.to_int n)
  end.

(** [paste(..., sep = " ")] and [paste0(...)] on length-one arguments. *)
Definition paste (args : list rvalue) : string :=
  String.concat " " (map as_character args).

Definition paste0 (args : list rvalue) : string :=
  String.concat "" (map as_character args).

(** [sprintf(fmt, ...)] for the conversion specifications the notebook uses.
    ["%%"] prints a percent sign and ["%s"] prints the next argument as if by
    [as.character].  Running out of arguments is an R error ([None]); so is, in
    this model, any other conversion specification, none of which occurs in
    the notebook.  Arguments left over after the last specification are
    ignored (R 3.6.3, the kernel version recorded in the notebook). *)
Fixpoint sprintf (fmt : string) (args : list rvalue) : option string :=
  match fmt with
  | EmptyString => Some EmptyString
  | String c rest =>
      if Ascii.eqb c "%" then
        match rest with
        | EmptyString => None
        | String k rest' =>
            if Ascii.eqb k "%" then option_map (String "%") (sprintf rest' args)
            else if Ascii.eqb k "s" then
              match args with
              | [] => None
              | v :: args' =>
                  option_map (String.append (as_character v)) (sprintf rest' args')
              end
            else None
        end
      else option_map (String c) (sprintf rest args)
  end.

(** Number of ["%s"] specifications of a format, scanned the way [sprintf]
    scans it (so that ["%%s"] does not count). *)
Fixpoint placeholders (fmt : string) : nat :=
  match fmt with
  | EmptyString => O
  | String c rest =>
      if Ascii.eqb c "%" then
        match rest with
        | EmptyString => O
        | String k rest' =>
            if Ascii.eqb k "s" then S (placeholders rest') else placeholders rest'
        end
      else placeholders rest
  end.

(** Whether a string contains the character [c]. *)
Fixpoint mentions (c : ascii) (s : string) : bool :=
  match s with
  | EmptyString => false
  | String k rest => Ascii.eqb k c || mentions c rest
  end.

End R.

(* ================================================================== *)
(** * BigQuery: the scalar functions and the three queries             *)
(* ================================================================== *)

Module BigQuery.

(** Outcome of evaluating a scalar expression on one row: a runtime error
    (which aborts the whole query), [NULL], or a value. *)
Inductive sql (A : Type) : Type :=
| Raise
| Null
| Val (a : A).
Arguments Raise {A}.
Arguments Null {A}.
Arguments Val {A} a.

(** Strict application: errors and [NULL]s of the argument pass through. *)
Definition bind {A B : Type} (x : sql A) (f : A -> sql B) : sql B :=
  match x with
  | Raise => Raise
  | Null => Null
  | Val a => f a
  end.

Notation "x <- e ;; k" := (bind e (fun x => k))
  (at level 61, e at next level, right associativity).

(** A stored column value is [NULL] or a value, never an error. *)
Definition col {A : Type} (c : option A) : sql A :=
  match c with
  | Some a => Val a
  | None => Null
  end.

Definition INT64_MIN : Z := - 2 ^ 63.
Definition INT64_MAX : Z := 2 ^ 63 - 1.

Definition in_int64 (z : Z) : bool := (INT64_MIN <=? z) && (z <=? INT64_MAX).

(** [ABS(x)] on INT64: an error when the result is not representable. *)
Definition ABS (x : Z) : sql Z :=
  if x =? INT64_MIN then Raise else Val (Z.abs x).

(** [MOD(x, y)] on INT64: division by zero is an error, and the result has
    the sign of [x]. *)
Definition MOD (x y : Z) : sql Z :=
  if y =? 0 then Raise else Val (Z.rem x y).

(** [CAST(x AS STRING)] on INT64: the decimal numeral, with ["-"] when
    negative. *)
Definition CAST_INT64_AS_STRING (x : Z) : string :=
  NilZero.string_of_int (Z.to_int x).

(** ASCII white space: blank, tab, line feed, vertical tab, form feed and
    carriage return. *)
Definition is_space (c : ascii) : bool :=
  let n := nat_of_ascii c in
  Nat.eqb n 32 || (Nat.leb 9 n && Nat.leb n 13).

Fixpoint skip_spaces (s : string) : string :=
  match s with
  | EmptyString => EmptyString
  | String c rest => if is_space c then skip_spaces rest else s
  end.

Fixpoint drop_trailing_spaces (s : string) : string :=
  match s with
  | EmptyString => EmptyString
  | String c rest =>
      match drop_trailing_spaces rest with
      | EmptyString => if is_space c then EmptyString else String c EmptyString
      | rest' => String c rest'
      end
  end.

(** White space is ignored at both ends, nowhere else. *)
Definition trim (s : string) : string := drop_trailing_spaces (skip_spaces s).

(** The text after a leading ["0x"] or ["0X"], when there is one. *)
Definition hex_body (s : string) : option string :=
  match s with
  | String a (String b rest) =>
      if Ascii.eqb a "0" && (Ascii.eqb b "x" || Ascii.eqb b "X")
      then Some rest else None
  | _ => None
  end.

(** Hexadecimal digits are read in either case. *)
Definition lower_hex (c : ascii) : ascii :=
  let n := nat_of_ascii c in
  if Nat.leb 65 n && Nat.leb n 70 then ascii_of_nat (n + 32) else c.

Fixpoint lower_hex_digits (s : string) : string :=
  match s with
  | EmptyString => EmptyString
  | String c rest => String (lower_hex c) (lower_hex_digits rest)
  end.

(** The number that an unsigned numeral denotes: decimal digits, or ["0x"]
    and hexadecimal digits; at least one digit either way.  A leading ["0"]
    does not make a numeral octal. *)
Definition magnitude (s : string) : option Z :=
  match hex_body s with
  | Some h =>
      option_map Z.of_hex_uint
        (HexadecimalString.NilZero.uint_of_string (lower_hex_digits h))
  | None => option_map Z.of_uint (NilZero.uint_of_string s)
  end.

(** [CAST(s AS INT64)] on STRING: white space around the numeral is ignored;
    the numeral is an optional ["+"] or ["-"], then decimal digits or ["0x"]
    and hexadecimal digits.  Anything else, and any value outside INT64, is an
    error. *)
Definition CAST_STRING_AS_INT64 (s : string) : sql Z :=
  let parsed :=
    match trim s with
    | EmptyString => None
    | String c rest =>
        if Ascii.eqb c "-" then option_map Z.opp (magnitude rest)
        else if Ascii.eqb c "+" then magnitude rest
        else magnitude (String c rest)
    end in
  match parsed with
  | Some z => if in_int64 z then Val z else Raise
  | None => Raise
  end.

(** [x > n] on a nullable INT64 column. *)
Definition int_gt (x : option Z) (n : Z) : sql bool :=
  v <- col x ;; Val (n <? v).

(** [x > 0] on a nullable FLOAT64 column (false on NaN). *)
Definition float_gt0 (x : option float) : sql bool :=
  v <- col x ;; Val (PrimFloat.ltb PrimFloat.zero v).

(** Three-valued [AND]. *)
Definition AND (a b : sql bool) : sql bool :=
  match a, b with
  | Raise, _ | _, Raise => Raise
  | Val false, _ | _, Val false => Val false
  | Val true, Val true => Val true
  | _, _ => Null
  end.

(** A [WHERE] clause keeps the rows on which its condition is [TRUE]. *)
Definition is_true (c : sql bool) : bool :=
  match c with
  | Val true => true
  | _ => false
  end.

(** A row of [publicdata.samples.natality], with the columns the notebook's
    queries mention; every column is nullable. *)
Record natality : Type := {
  year : option Z;
  month : option Z;
  weight_pounds : option float;
  is_male : option bool;
  mother_age : option Z;
  plurality : option Z;
  gestation_weeks : option Z;
  cigarette_use : option bool;
  alcohol_use : option bool
}.

(** A row of the base query's result (and of [natality_data], [train_data],
    [eval_data]). *)
Record birth : Type := {
  b_weight_pounds : option float;
  b_is_male : option bool;
  b_mother_age : option Z;
  b_plurality : option Z;
  b_gestation_weeks : option Z;
  b_cigarette_use : option bool;
  b_alcohol_use : option bool;
  key : option string
}.

(** The partition value [MOD(CAST(key AS INT64), 100)] and the two split
    conditions of [train_query] and [eval_query]. *)
Definition partition_value (k : option string) : sql Z :=
  s <- col k ;; z <- CAST_STRING_AS_INT64 s ;; MOD z 100.

Definition train_condition (k : option string) : sql bool :=
  m <- partition_value k ;; Val (m <=? 75).

Definition eval_condition (k : option string) : sql bool :=
  m <- partition_value k ;; Val (75 <? m).

(** [SELECT * FROM (rows) WHERE cond]: an error on any row aborts the query
    ([None]); otherwise the rows whose condition is [TRUE], in order. *)
Fixpoint select_where (cond : birth -> sql bool) (rows : list birth)
  : option (list birth) :=
  match rows with
  | [] => Some []
  | r :: rest =>
      match cond r with
      | Raise => None
      | c =>
          match select_where cond rest with
          | None => None
          | Some kept => Some (if is_true c then r :: kept else kept)
          end
      end
  end.

Definition run_train_query (rows : list birth) : option (list birth) :=
  select_where (fun r => train_condition (key r)) rows.

Definition run_eval_query (rows : list birth) : option (list birth) :=
  select_where (fun r => eval_condition (key r)) rows.

Section BaseQuery.

(** The engine's functions that the embedding leaves abstract:
    [FARM_FINGERPRINT] on STRING (an INT64), [CAST(x AS STRING)] on FLOAT64
    and [ROUND(x, 2)]. *)
Variable FARM_FINGERPRINT : string -> Z.
Variable CAST_FLOAT64_AS_STRING : float -> string.
Variable ROUND2 : float -> float.

(** [CONCAT] of the three casts: [NULL] as soon as one column is. *)
Definition key_text (r : natality) : sql string :=
  y <- col (year r) ;;
  m <- col (month r) ;;
  w <- col (weight_pounds r) ;;
  Val (CAST_INT64_AS_STRING y ++ CAST_INT64_AS_STRING m
       ++ CAST_FLOAT64_AS_STRING w).

(** The [key] column:
    [CAST(ABS(FARM_FINGERPRINT(CONCAT(...))) AS STRING)]. *)
Definition key_column (r : natality) : sql string :=
  t <- key_text r ;;
  a <- ABS (FARM_FINGERPRINT t) ;;
  Val (CAST_INT64_AS_STRING a).

(** The [WHERE] clause of the base query. *)
Definition where_clause (r : natality) : sql bool :=
  AND (AND (AND (AND (AND (int_gt (year r) 2000)
                          (float_gt0 (weight_pounds r)))
                     (int_gt (mother_age r) 0))
                (int_gt (plurality r) 0))
           (int_gt (gestation_weeks r) 0))
      (int_gt (month r) 0).

(** The [SELECT] list on one row; [None] when the key raises an error. *)
Definition select_list (r : natality) : option birth :=
  match key_column r with
  | Raise => None
  | k =>
      Some {| b_weight_pounds := option_map ROUND2 (weight_pounds r);
              b_is_male := is_male r;
              b_mother_age := mother_age r;
              b_plurality := plurality r;
              b_gestation_weeks := gestation_weeks r;
              b_cigarette_use := cigarette_use r;
              b_alcohol_use := alcohol_use r;
              key := match k with Val s => Some s | _ => None end |}
  end.

Fixpoint select_all (rows : list natality) : option (list birth) :=
  match rows with
  | [] => Some []
  | r :: rest =>
      match select_list r, select_all rest with
      | Some b, Some bs => Some (b :: bs)
      | _, _ => None
      end
  end.

(** One job of the base query with [LIMIT limit]: filter, keep at most
    [limit] rows, then compute the select list.  The query has no [ORDER BY]:
    the order of [table] stands for the order in which the engine happens to
    produce the rows in this job, which another job of the same query need
    not share.  [None] is a failed job; an engine is free to compute the
    select list on more rows than [LIMIT] keeps and so to fail where this
    definition does not, with the same rows when it succeeds: the statements
    on this definition are about the rows of a successful job. *)
Definition base_query (table : list natality) (limit : nat)
  : option (list birth) :=
  select_all (firstn limit (filter (fun r => is_true (where_clause r)) table)).

(** The two split queries as the notebook sends them: [train_query] and
    [eval_query] are two jobs, and each runs the inner query again, over the
    rows in the order [scan] in which its own job produces them. *)
Definition train_job (scan : list natality) (limit : nat)
  : option (list birth) :=
  match base_query scan limit with
  | Some inner => run_train_query inner
  | None => None
  end.

Definition eval_job (scan : list natality) (limit : nat)
  : option (list birth) :=
  match base_query scan limit with
  | Some inner => run_eval_query inner
  | None => None
  end.

End BaseQuery.

(** ** Numeral keys *)

Definition is_digit (c : ascii) : bool :=
  let n := nat_of_ascii c in Nat.leb 48 n && Nat.leb n 57.

Fixpoint all_digits (s : string) : bool :=
  match s with
  | EmptyString => true
  | String c rest => is_digit c && all_digits rest
  end.

(** A key that is the numeral of a non-negative INT64. *)
Definition numeral_key (k : option string) : Prop :=
  exists z, 0 <= z <= INT64_MAX /\ k = Some (CAST_INT64_AS_STRING z).

End BigQuery.

(* ================================================================== *)
(** * Data frames and [write.table]                                    *)
(* ================================================================== *)

Module Csv.

(** A cell of a data frame column: logical, integer, double or character,
    each possibly [NA]. *)
Inductive value : Type :=
| Lgl (b : option bool)
| Int (n : option Z)
| Dbl (x : option float)
| Chr (s : option string).

Record data_frame : Type := {
  names : list string;
  rows : list (list value)
}.

Definition nrow (d : data_frame) : nat := List.length (rows d).

Definition newline : ascii := ascii_of_nat 10.
Definition double_quote : ascii := ascii_of_nat 34.
Definition backslash : ascii := ascii_of_nat 92.

(** [eol = "\n"], the default of [write.table]. *)
Definition eol : string := String newline EmptyString.

(** [qmethod = "escape"] (the default): a double quote inside a quoted field
    is preceded by a backslash. *)
Fixpoint escape (s : string) : string :=
  match s with
  | EmptyString => EmptyString
  | String c rest =>
      if Ascii.eqb c double_quote
      then String backslash (String c (escape rest))
      else String c (escape rest)
  end.

Definition quoted (s : string) : string :=
  String double_quote (escape s ++ String double_quote EmptyString).

Section WriteTable.

(** R's formatting of a double (15 significant digits), left abstract. *)
Variable format_double : float -> string.

(** One field, with [quote = TRUE] (the default): character fields are
    quoted, [NA] is written [NA] without quotes. *)
Definition field (v : value) : string :=
  match v with
  | Lgl (Some true) => "TRUE"
  | Lgl (Some false) => "FALSE"
  | Int (Some n) => NilZero.string_of_int (Z.to_int n)
  | Dbl (Some x) => format_double x
  | Chr (Some s) => quoted s
  | Lgl None | Int None | Dbl None | Chr None => "NA"
  end.

(** The text of one record: its fields joined by [sep], after the quoted row
    name when [row.names = TRUE]. *)
Definition record_text (row_names : bool) (sep : string)
    (number : nat) (r : list value) : string :=
  let name := quoted (NilZero.string_of_uint (Nat.to_uint number)) in
  String.concat sep ((if row_names then [name] else []) ++ map field r).

Fixpoint records (row_names : bool) (sep : string) (number : nat)
    (rs : list (list value)) : string :=
  match rs with
  | [] => EmptyString
  | r :: rest =>
      record_text row_names sep number r ++ eol
      ++ records row_names sep (S number) rest
  end.

(** [write.table(d, file, row.names =, col.names =, sep =)]: the text written
    to the file.  With [col.names = TRUE] a first line holds the quoted
    column names. *)
Definition write_table (d : data_frame) (row_names col_names : bool)
    (sep : string) : string :=
  (if col_names then String.concat sep (map quoted (names d)) ++ eol
   else EmptyString)
  ++ records row_names sep 1 (rows d).

End WriteTable.

(** The lines of a text: the pieces that end in a newline, and the piece after
    the last newline when it is not empty. *)
Fixpoint lines (s : string) : list string :=
  match s with
  | EmptyString => []
  | String c rest =>
      if Ascii.eqb c newline then EmptyString :: lines rest
      else match lines rest with
           | [] => [String c EmptyString]
           | l :: ls => String c l :: ls
           end
  end.

(** The data frame that [bq_table_download] builds from the rows of a split
    query. *)
Definition birth_values (b : BigQuery.birth) : list value :=
  [ Dbl (BigQuery.b_weight_pounds b); Lgl (BigQuery.b_is_male b);
    Int (BigQuery.b_mother_age b); Int (BigQuery.b_plurality b);
    Int (BigQuery.b_gestation_weeks b); Lgl (BigQuery.b_cigarette_use b);
    Lgl (BigQuery.b_alcohol_use b); Chr (BigQuery.key b) ].

Definition frame_of_births (bs : list BigQuery.birth) : data_frame :=
  {| names := [ "weight_pounds"; "is_male"; "mother_age"; "plurality";
                "gestation_weeks"; "cigarette_use"; "alcohol_use"; "key" ];
     rows := map birth_values bs |}.

(** Whether no field of the data frame contains a newline. *)
Definition one_line_fields (format_double : float -> string) (d : data_frame)
  : bool :=
  forallb (forallb (fun v => negb (R.mentions newline (field format_double v))))
          (rows d).

End Csv.

(* ================================================================== *)
(** * The notebook: variables, external calls and code cells           *)
(* ================================================================== *)

Module Notebook.
Import R.

(** The string literal of cell "1.1. Prepare the BigQuery query", character
    for character (two of its lines end in a blank). *)
Definition sql_query_template : string := "
    SELECT
      ROUND(weight_pounds, 2) AS weight_pounds ,
      is_male,
      mother_age,
      plurality,
      gestation_weeks,
      cigarette_use,
      alcohol_use,
      CAST(ABS(FARM_FINGERPRINT(CONCAT(
        CAST(YEAR AS STRING), CAST(month AS STRING), 
        CAST(weight_pounds AS STRING)))
        ) AS STRING) AS key
    FROM
        publicdata.samples.natality
    WHERE 
      year > 2000
      AND weight_pounds > 0
      AND mother_age > 0
      AND plurality > 0
      AND gestation_weeks > 0
      AND month > 0
    LIMIT %s
".

(** ** The global environment *)

(** What an R variable of the notebook can hold. *)
Inductive object : Type :=
| Atom (v : rvalue)
| Frame (d : Csv.data_frame)
| Closure.

Definition env : Type := list (string * object).

Definition assign (name : string) (o : object) (e : env) : env :=
  (name, o) :: e.

Fixpoint lookup (name : string) (e : env) : option object :=
  match e with
  | [] => None
  | (n, o) :: rest => if String.eqb n name then Some o else lookup name rest
  end.

(** ** External calls and their outcomes *)

(** An R condition of class error, by its message. *)
Definition condition : Type := string.

Inductive layer : Type :=
| geom_histogram (bins : Z)
| geom_point
| geom_smooth (method : string)
| geom_col
| geom_line
| scale_y_log10.

Record plot : Type := {
  data : string;
  aes_x : string;
  aes_y : option string;
  layers : list layer
}.

(** The calls that leave the R session. *)
Inductive call : Type :=
| Library (package : string)
| BqAuth (use_oob : bool)
| BqProjectQuery (project query : string)
| BqTableDownload (query : string)
| Ggplot (p : plot)
| DirCreate (path : string)
| WriteTable (file : string)
| System (command : string) (intern : bool).

Inductive shell_outcome : Type :=
| Exited (status : Z) (output : list string)
| CannotRun.

(** One execution's environment: how each external call turns out.  A table
    is identified by the query whose result it holds. *)
Record world : Type := {
  installed : string -> option condition;
  authenticate : bool -> option condition;
  project_query : string -> string -> option condition;
  table_download : string -> condition + Csv.data_frame;
  render_plot : plot -> option condition;
  make_directory : string -> bool;
  open_file : string -> option condition;
  shell : string -> shell_outcome;
  format_double : float -> string
}.

(** What an execution leaves behind: the external calls in the order they
    were issued, each with the index of the code cell that issued it, the
    console output and the files written. *)
Record log : Type := {
  calls : list (nat * call);
  console : list string;
  files : list (string * string)
}.

Definition empty_log : log := {| calls := []; console := []; files := [] |}.

Inductive result (A : Type) : Type :=
| Ok (a : A)
| Stop (c : condition).
Arguments Ok {A} a.
Arguments Stop {A} c.

(** A piece of R code: given the world, the index of the running cell and
    the log so far, the new log and a value or the error that stopped it. *)
Definition M (A : Type) : Type := world -> nat -> log -> log * result A.

Definition ret {A : Type} (a : A) : M A := fun _ _ l => (l, Ok a).

Definition stop {A : Type} (c : condition) : M A := fun _ _ l => (l, Stop c).

Definition bind {A B : Type} (m : M A) (k : A -> M B) : M B :=
  fun w i l =>
    match m w i l with
    | (l', Ok a) => k a w i l'
    | (l', Stop c) => (l', Stop c)
    end.

#[local] Notation "x <~ m ;; k" := (bind m (fun x => k))
  (at level 61, m at next level, right associativity).
#[local] Notation "m ;;; k" := (bind m (fun _ => k))
  (at level 61, right associativity).

Definition log_call (i : nat) (c : call) (l : log) : log :=
  {| calls := calls l ++ [(i, c)]; console := console l; files := files l |}.

Definition log_console (text : string) (l : log) : log :=
  {| calls := calls l; console := console l ++ [text]; files := files l |}.

Definition log_file (file text : string) (l : log) : log :=
  {| calls := calls l; console := console l; files := files l ++ [(file, text)] |}.

(** An external call whose failure is signalled as an R error. *)
Definition external {A : Type} (c : call) (answer : world -> result A) : M A :=
  fun w i l => (log_call i c l, answer w).

Definition signalled (o : option condition) : result unit :=
  match o with
  | None => Ok tt
  | Some c => Stop c
  end.

Definition show (text : string) : M unit :=
  fun _ _ l => (log_console text l, Ok tt).

(** Reading a variable: an unbound name, or a value of the wrong kind, is an
    R error. *)
Definition not_found (name : string) : condition :=
  "object '" ++ name ++ "' not found".

Definition need_atom (name : string) (e : env) : M rvalue :=
  match lookup name e with
  | Some (Atom v) => ret v
  | Some _ => stop "invalid argument type"
  | None => stop (not_found name)
  end.

Definition need_chr (name : string) (e : env) : M string :=
  match lookup name e with
  | Some (Atom (RChr s)) => ret s
  | Some _ => stop "invalid argument type"
  | None => stop (not_found name)
  end.

Definition need_frame (name : string) (e : env) : M Csv.data_frame :=
  match lookup name e with
  | Some (Frame d) => ret d
  | Some _ => stop "invalid argument type"
  | None => stop (not_found name)
  end.

Definition need_function (name : string) (e : env) : M unit :=
  match lookup name e with
  | Some Closure => ret tt
  | Some _ => stop "attempt to apply non-function"
  | None => stop ("could not find function " ++ name)
  end.

(** ** The library functions the cells call *)

Definition library (package : string) : M unit :=
  external (Library package) (fun w => signalled (installed w package)).

Definition bq_auth (use_oob : bool) : M unit :=
  external (BqAuth use_oob) (fun w => signalled (authenticate w use_oob)).

(** [bq_project_query] returns the table holding the result. *)
Definition bq_project_query (project query : string) : M string :=
  external (BqProjectQuery project query)
    (fun w => match project_query w project query with
              | None => Ok query
              | Some c => Stop c
              end).

Definition bq_table_download (table : string) : M Csv.data_frame :=
  external (BqTableDownload table)
    (fun w => match table_download w table with
              | inr d => Ok d
              | inl c => Stop c
              end).

(** A [ggplot(...) + ...] expression at top level, which the kernel renders. *)
Definition ggplot (p : plot) : M unit :=
  external (Ggplot p) (fun w => signalled (render_plot w p)).

Definition r_sprintf (fmt : string) (args : list rvalue) : M string :=
  match sprintf fmt args with
  | Some s => ret s
  | None => stop "too few arguments"
  end.

(** [dir.create] reports failure by its value and a warning, never by an
    error. *)
Definition dir_create (path : string) (showWarnings : bool) : M bool :=
  fun w i l =>
    let created := make_directory w path in
    let l := log_call i (DirCreate path) l in
    (if showWarnings && negb created
     then log_console ("Warning: cannot create dir '" ++ path ++ "'") l
     else l,
     Ok created).

(** [write.table]: an error when the file cannot be opened. *)
Definition write_table (d : Csv.data_frame) (file : string)
    (row_names col_names : bool) (sep : string) : M unit :=
  fun w i l =>
    let l := log_call i (WriteTable file) l in
    match open_file w file with
    | Some c => (l, Stop c)
    | None =>
        (log_file file
           (Csv.write_table (format_double w) d row_names col_names sep) l,
         Ok tt)
    end.

(** [system(command)]: the value is the exit status of the command, 127 when
    it could not be run; no error is signalled either way. *)
Definition system (command : string) : M Z :=
  fun w i l =>
    (log_call i (System command false) l,
     Ok match shell w command with
        | Exited status _ => status
        | CannotRun => 127
        end).

(** [system(command, intern = TRUE)]: the value is the output of the
    command; an error is signalled only when the command could not be run. *)
Definition system_intern (command : string) : M (list string) :=
  external (System command true)
    (fun w => match shell w command with
              | Exited _ output => Ok output
              | CannotRun => Stop "error in running command"
              end).

(** ** The code cells, in the order of the notebook *)

Definition cell : Type := env -> M env.

Definition cell_0 : cell := fun e =>
  show "version" ;;; ret e.

Definition cell_1 : cell := fun e =>
  library "bigrquery" ;;;
  library "ggplot2" ;;;
  library "dplyr" ;;;
  ret e.

Definition cell_2 : cell := fun e =>
  bq_auth true ;;; ret e.

Definition cell_3 : cell := fun e =>
  let e := assign "PROJECT_ID" (Atom (RChr "gcp-data-science-demo")) e in
  let e := assign "BUCKET_NAME" (Atom (RChr "r-on-gcp")) e in
  ret e.

Definition cell_4 : cell := fun e =>
  ret (assign "sql_query" (Atom (RChr sql_query_template)) e).

(** "1.2. Execute the query". *)
Definition cell_5 : cell := fun e =>
  let e := assign "sample_size" (Atom (RNum 10000)) e in
  fmt <~ need_chr "sql_query" e ;;
  n <~ need_atom "sample_size" e ;;
  q <~ r_sprintf fmt [n] ;;
  let e := assign "sql_query" (Atom (RChr q)) e in
  project <~ need_chr "PROJECT_ID" e ;;
  query <~ need_chr "sql_query" e ;;
  table <~ bq_project_query project query ;;
  d <~ bq_table_download table ;;
  ret (assign "natality_data" (Frame d) e).

Definition cell_6 : cell := fun e =>
  need_frame "natality_data" e ;;; show "head(natality_data)" ;;; ret e.

Definition cell_7 : cell := fun e =>
  need_frame "natality_data" e ;;; show "str(natality_data)" ;;; ret e.

Definition cell_8 : cell := fun e =>
  need_frame "natality_data" e ;;; show "summary(natality_data)" ;;; ret e.

Definition cell_9 : cell := fun e =>
  need_frame "natality_data" e ;;;
  ggplot {| data := "natality_data"; aes_x := "weight_pounds"; aes_y := None;
            layers := [geom_histogram 200] |} ;;;
  ret e.

Definition cell_10 : cell := fun e =>
  need_frame "natality_data" e ;;;
  ggplot {| data := "natality_data"; aes_x := "gestation_weeks";
            aes_y := Some "weight_pounds";
            layers := [geom_point; geom_smooth "lm"] |} ;;;
  ret e.

(** The body of [get_distinct_values]. *)
Definition get_distinct_values (column_name : string) (e : env)
  : M Csv.data_frame :=
  let query := paste0 [RChr "SELECT "; RChr column_name; RChr ", 
            COUNT(1) AS num_babies,
            AVG(weight_pounds) AS avg_wt
        FROM publicdata.samples.natality
        WHERE year > 2000
        GROUP BY ";
                       RChr column_name] in
  project <~ need_chr "PROJECT_ID" e ;;
  table <~ bq_project_query project query ;;
  bq_table_download table.

Definition cell_11 : cell := fun e =>
  ret (assign "get_distinct_values" Closure e).

(** Cells 12 to 15: one aggregation and two charts of it. *)
Definition distinct_values_cell (column_name : string)
    (first second : list layer) : cell := fun e =>
  need_function "get_distinct_values" e ;;;
  d <~ get_distinct_values column_name e ;;
  let e := assign "df" (Frame d) e in
  need_frame "df" e ;;;
  ggplot {| data := "df"; aes_x := column_name; aes_y := Some "num_babies";
            layers := first |} ;;;
  need_frame "df" e ;;;
  ggplot {| data := "df"; aes_x := column_name; aes_y := Some "avg_wt";
            layers := second |} ;;;
  ret e.

Definition cell_12 : cell := distinct_values_cell "is_male" [geom_col] [geom_col].

Definition cell_13 : cell := distinct_values_cell "mother_age" [geom_line] [geom_line].

Definition cell_14 : cell :=
  distinct_values_cell "plurality" [geom_col; scale_y_log10] [geom_col].

Definition cell_15 : cell :=
  distinct_values_cell "gestation_weeks" [geom_col; scale_y_log10] [geom_col].

(** "Prepare training and evaluation data from BigQuery". *)
Definition cell_16 : cell := fun e =>
  let e := assign "sample_size" (Atom (RNum 10000)) e in
  fmt <~ need_chr "sql_query" e ;;
  n <~ need_atom "sample_size" e ;;
  q <~ r_sprintf fmt [n] ;;
  let e := assign "sql_query" (Atom (RChr q)) e in
  inner <~ need_atom "sql_query" e ;;
  let e := assign "train_query"
             (Atom (RChr (paste [RChr "SELECT * FROM ("; inner;
                                 RChr ") WHERE MOD(CAST(key AS INT64), 100) <= 75"])))
             e in
  inner <~ need_atom "sql_query" e ;;
  let e := assign "eval_query"
             (Atom (RChr (paste [RChr "SELECT * FROM ("; inner;
                                 RChr ") WHERE MOD(CAST(key AS INT64), 100) > 75"])))
             e in
  project <~ need_chr "PROJECT_ID" e ;;
  query <~ need_chr "train_query" e ;;
  table <~ bq_project_query project query ;;
  d <~ bq_table_download table ;;
  let e := assign "train_data" (Frame d) e in
  project <~ need_chr "PROJECT_ID" e ;;
  query <~ need_chr "eval_query" e ;;
  table <~ bq_project_query project query ;;
  d <~ bq_table_download table ;;
  ret (assign "eval_data" (Frame d) e).

Definition cell_17 : cell := fun e =>
  d <~ need_frame "train_data" e ;;
  show (paste0 [RChr "Training instances count: ";
                RInt (Z.of_nat (Csv.nrow d))]) ;;;
  d <~ need_frame "eval_data" e ;;
  show (paste0 [RChr "Evaluation instances count: ";
                RInt (Z.of_nat (Csv.nrow d))]) ;;;
  ret e.

(** "Write data frames to local CSV files, without headers or row names". *)
Definition cell_18 : cell := fun e =>
  dir_create "data" false ;;;
  d <~ need_frame "train_data" e ;;
  write_table d "data/train_data.csv" false false "," ;;;
  d <~ need_frame "eval_data" e ;;
  write_table d "data/eval_data.csv" false false "," ;;;
  ret e.

(** "Upload CSV data to Google Cloud Storage by passing gsutil commands to
    system". *)
Definition cell_19 : cell := fun e =>
  bucket <~ need_atom "BUCKET_NAME" e ;;
  let e := assign "gcs_url" (Atom (RChr (paste0 [RChr "gs://"; bucket; RChr "/"]))) e in
  url <~ need_atom "gcs_url" e ;;
  let e := assign "command" (Atom (RChr (paste [RChr "gsutil mb"; url]))) e in
  command <~ need_chr "command" e ;;
  system command ;;;
  bucket <~ need_atom "BUCKET_NAME" e ;;
  let e := assign "gcs_data_dir"
             (Atom (RChr (paste0 [RChr "gs://"; bucket; RChr "/data"]))) e in
  dir <~ need_atom "gcs_data_dir" e ;;
  let e := assign "command"
             (Atom (RChr (paste [RChr "gsutil cp data/*_data.csv"; dir]))) e in
  command <~ need_chr "command" e ;;
  system command ;;;
  dir <~ need_atom "gcs_data_dir" e ;;
  let e := assign "command" (Atom (RChr (paste [RChr "gsutil ls -l"; dir]))) e in
  command <~ need_chr "command" e ;;
  output <~ system_intern command ;;
  show (String.concat Csv.eol output) ;;;
  ret e.

Definition notebook : list cell :=
  [ cell_0; cell_1; cell_2; cell_3; cell_4; cell_5; cell_6; cell_7; cell_8;
    cell_9; cell_10; cell_11; cell_12; cell_13; cell_14; cell_15; cell_16;
    cell_17; cell_18; cell_19 ].

(** Running cells from top to bottom, from cell number [i] on; the first
    error stops the run. *)
Fixpoint run_cells (cells : list cell) (i : nat) (e : env) (w : world) (l : log)
  : log * result env :=
  match cells with
  | [] => (l, Ok e)
  | c :: rest =>
      match c e w i l with
      | (l', Ok e') => run_cells rest (S i) e' w l'
      | (l', Stop c) => (l', Stop c)
      end
  end.

Definition run (w : world) : log * result env :=
  run_cells notebook 0 [] w empty_log.

End Notebook.

(* ================================================================== *)
(** * The expected sequence of external calls                          *)
(* ================================================================== *)

Module Trace.
Import R Notebook.

(** The template around its [%s]. *)
Definition template_head : string := substring 0 547 sql_query_template.
Definition template_tail : string := substring 549 1 sql_query_template.

(** The query of cell 5, and the two queries of cell 16. *)
Definition query_10000 : string := template_head ++ "10000" ++ template_tail.

Definition train_query : string :=
  paste [RChr "SELECT * FROM ("; RChr query_10000;
         RChr ") WHERE MOD(CAST(key AS INT64), 100) <= 75"].

Definition eval_query : string :=
  paste [RChr "SELECT * FROM ("; RChr query_10000;
         RChr ") WHERE MOD(CAST(key AS INT64), 100) > 75"].

Definition project : string := "gcp-data-science-demo".

(** The calls of one of the cells 12 to 15. *)
Definition distinct_values_calls (i : nat) (column_name : string)
    (first second : list layer) : list (nat * call) :=
  let query := paste0 [RChr "SELECT "; RChr column_name; RChr ", 
            COUNT(1) AS num_babies,
            AVG(weight_pounds) AS avg_wt
        FROM publicdata.samples.natality
        WHERE year > 2000
        GROUP BY ";
                       RChr column_name] in
  [ (i, BqProjectQuery project query);
    (i, BqTableDownload query);
    (i, Ggplot {| data := "df"; aes_x := column_name;
                  aes_y := Some "num_babies"; layers := first |});
    (i, Ggplot {| data := "df"; aes_x := column_name;
                  aes_y := Some "avg_wt"; layers := second |}) ].

(** The calls of a run in which nothing fails. *)
Definition canonical : list (nat * call) :=
  [ (1%nat, Library "bigrquery"); (1%nat, Library "ggplot2");
    (1%nat, Library "dplyr");
    (2%nat, BqAuth true);
    (5%nat, BqProjectQuery project query_10000);
    (5%nat, BqTableDownload query_10000);
    (9%nat, Ggplot {| data := "natality_data"; aes_x := "weight_pounds";
                      aes_y := None; layers := [geom_histogram 200] |});
    (10%nat, Ggplot {| data := "natality_data"; aes_x := "gestation_weeks";
                       aes_y := Some "weight_pounds";
                       layers := [geom_point; geom_smooth "lm"] |}) ]
  ++ distinct_values_calls 12 "is_male" [geom_col] [geom_col]
  ++ distinct_values_calls 13 "mother_age" [geom_line] [geom_line]
  ++ distinct_values_calls 14 "plurality" [geom_col; scale_y_log10] [geom_col]
  ++ distinct_values_calls 15 "gestation_weeks" [geom_col; scale_y_log10] [geom_col]
  ++ [ (16%nat, BqProjectQuery project train_query);
       (16%nat, BqTableDownload train_query);
       (16%nat, BqProjectQuery project eval_query);
       (16%nat, BqTableDownload eval_query);
       (18%nat, DirCreate "data");
       (18%nat, WriteTable "data/train_data.csv");
       (18%nat, WriteTable "data/eval_data.csv");
       (19%nat, System "gsutil mb gs://r-on-gcp/" false);
       (19%nat, System "gsutil cp data/*_data.csv gs://r-on-gcp/data" false);
       (19%nat, System "gsutil ls -l gs://r-on-gcp/data" true) ].

(** The R error, if any, that a call signals in a given world. *)
Definition raised (w : world) (c : call) : option condition :=
  match c with
  | Library package => installed w package
  | BqAuth use_oob => authenticate w use_oob
  | BqProjectQuery p q => project_query w p q
  | BqTableDownload q =>
      match table_download w q with
      | inl c => Some c
      | inr _ => None
      end
  | Ggplot p => render_plot w p
  | DirCreate _ => None
  | WriteTable file => open_file w file
  | System _ false => None
  | System command true =>
      match shell w command with
      | CannotRun => Some "error in running command"
      | Exited _ _ => None
      end
  end.

(** The calls of a list up to and including the first one that signals an
    error, with that error. *)
Fixpoint until_error (w : world) (cs : list (nat * call))
  : list (nat * call) * option condition :=
  match cs with
  | [] => ([], None)
  | (i, c) :: rest =>
      match raised w c with
      | Some e => ([(i, c)], Some e)
      | None => let (t, o) := until_error w rest in ((i, c) :: t, o)
      end
  end.

Definition outcome {A : Type} (r : result A) : option condition :=
  match r with
  | Ok _ => None
  | Stop c => Some c
  end.

(** The six steps of the notebook, in the order of its sections. *)
Inductive step : Type :=
| authenticate_step
| query_step
| download_step
| plot_step
| split_step
| upload_step.

Definition rank (s : step) : nat :=
  match s with
  | authenticate_step => 0
  | query_step => 1
  | download_step => 2
  | plot_step => 3
  | split_step => 4
  | upload_step => 5
  end.

(** Whether a query is one of the two split queries of cell 16. *)
Definition is_split_query (q : string) : bool :=
  String.eqb q train_query || String.eqb q eval_query.

(** The step a call belongs to, read off the call itself: [bq_auth]
    authenticates; [bq_project_query] is a query and [bq_table_download] a
    download, unless the query is one of the two split queries, which make
    the split together with [dir.create] and the two [write.table] calls;
    [ggplot] plots; [system] uploads.  Loading a library belongs to no
    step. *)
Definition step_of (c : call) : option step :=
  match c with
  | Library _ => None
  | BqAuth _ => Some authenticate_step
  | BqProjectQuery _ q =>
      Some (if is_split_query q then split_step else query_step)
  | BqTableDownload q =>
      Some (if is_split_query q then split_step else download_step)
  | Ggplot _ => Some plot_step
  | DirCreate _ | WriteTable _ => Some split_step
  | System _ _ => Some upload_step
  end.

Fixpoint steps (cs : list (nat * call)) : list step :=
  match cs with
  | [] => []
  | (_, c) :: rest =>
      match step_of c with
      | Some s => s :: steps rest
      | None => steps rest
      end
  end.

(** Whether steps come in the order authenticate, query, download, plot,
    split, upload, none of them taken up again after a later one. *)
Fixpoint in_order (ss : list step) : bool :=
  match ss with
  | [] => true
  | a :: rest =>
      match rest with
      | [] => true
      | b :: _ => Nat.leb (rank a) (rank b) && in_order rest
      end
  end.

Definition is_query (c : call) : bool :=
  match c with
  | BqProjectQuery _ _ => true
  | _ => false
  end.

Definition is_system (c : call) : bool :=
  match c with
  | System _ _ => true
  | _ => false
  end.

(** In a log, whether both CSV files are among the files written. *)
Definition both_written (l : log) : bool :=
  existsb (String.eqb "data/train_data.csv") (map fst (files l))
  && existsb (String.eqb "data/eval_data.csv") (map fst (files l)).

(** A world in which every call succeeds and every table is empty. *)
Definition ideal : world :=
  {| installed := fun _ => None;
     authenticate := fun _ => None;
     project_query := fun _ _ => None;
     table_download := fun _ => inr {| Csv.names := []; Csv.rows := [] |};
     render_plot := fun _ => None;
     make_directory := fun _ => true;
     open_file := fun _ => None;
     shell := fun _ => Exited 0 [];
     format_double := fun _ => "0" |}.

(** The same world, except that the bucket exists already, so that
    [gsutil mb] exits with status 1. *)
Definition bucket_exists : world :=
  {| installed := installed ideal;
     authenticate := authenticate ideal;
     project_query := project_query ideal;
     table_download := table_download ideal;
     render_plot := render_plot ideal;
     make_directory := make_directory ideal;
     open_file := open_file ideal;
     shell := fun command =>
       if String.eqb command "gsutil mb gs://r-on-gcp/"
       then Exited 1 ["ServiceException: 409 Bucket r-on-gcp already exists."]
       else Exited 0 [];
     format_double := format_double ideal |}.

(** The same world, except that the query of cell 5 is rejected. *)
Definition quota_exceeded : world :=
  {| installed := installed ideal;
     authenticate := authenticate ideal;
     project_query := fun _ q =>
       if String.eqb q query_10000 then Some "Quota exceeded" else None;
     table_download := table_download ideal;
     render_plot := render_plot ideal;
     make_directory := make_directory ideal;
     open_file := open_file ideal;
     shell := shell ideal;
     format_double := format_double ideal |}.

(** Whether an upload command is among the calls. *)
Definition uploading (cs : list (nat * call)) : bool :=
  existsb (fun x => is_system (snd x)) cs.

(** What a run has to look like in world [w]: its calls and its outcome are
    those of the expected sequence, cut after the first call that signals an
    error; an upload command only occurs once both CSV files are written; and
    when the run completes, the query variables and the two files are the
    expected ones. *)
Definition agrees (w : world) (x : log * result env) : Prop :=
  let (l, r) := x in
  (calls l, outcome r) = until_error w canonical /\
  implb (uploading (calls l)) (both_written l) = true /\
  match r with
  | Stop _ => True
  | Ok e =>
      lookup "sql_query" e = Some (Atom (RChr query_10000)) /\
      lookup "train_query" e = Some (Atom (RChr train_query)) /\
      lookup "eval_query" e = Some (Atom (RChr eval_query)) /\
      exists train_data eval_data,
        table_download w train_query = inr train_data /\
        table_download w eval_query = inr eval_data /\
        lookup "train_data" e = Some (Frame train_data) /\
        lookup "eval_data" e = Some (Frame eval_data) /\
        files l =
          [ ("data/train_data.csv",
             Csv.write_table (format_double w) train_data false false ",");
            ("data/eval_data.csv",
             Csv.write_table (format_double w) eval_data false false ",") ]
  end.

(** Equality test on calls. *)
Definition layer_eqb (a b : layer) : bool :=
  match a, b with
  | geom_histogram m, geom_histogram n => Z.eqb m n
  | geom_point, geom_point => true
  | geom_smooth m, geom_smooth n => String.eqb m n
  | geom_col, geom_col => true
  | geom_line, geom_line => true
  | scale_y_log10, scale_y_log10 => true
  | _, _ => false
  end.

Fixpoint layers_eqb (a b : list layer) : bool :=
  match a, b with
  | [], [] => true
  | x :: a', y :: b' => layer_eqb x y && layers_eqb a' b'
  | _, _ => false
  end.

Definition plot_eqb (p q : plot) : bool :=
  String.eqb (data p) (data q) && String.eqb (aes_x p) (aes_x q)
  && match aes_y p, aes_y q with
     | Some a, Some b => String.eqb a b
     | None, None => true
     | _, _ => false
     end
  && layers_eqb (layers p) (layers q).

Definition call_eqb (c d : call) : bool :=
  match c, d with
  | Library a, Library b => String.eqb a b
  | BqAuth a, BqAuth b => Bool.eqb a b
  | BqProjectQuery p q, BqProjectQuery p' q' => String.eqb p p' && String.eqb q q'
  | BqTableDownload q, BqTableDownload q' => String.eqb q q'
  | Ggplot p, Ggplot q => plot_eqb p q
  | DirCreate a, DirCreate b => String.eqb a b
  | WriteTable a, WriteTable b => String.eqb a b
  | System a i, System b j => String.eqb a b && Bool.eqb i j
  | _, _ => false
  end.

Definition entry_eqb (x y : nat * call) : bool :=
  Nat.eqb (fst x) (fst y) && call_eqb (snd x) (snd y).

(** No entry occurs twice. *)
Fixpoint distinct (cs : list (nat * call)) : bool :=
  match cs with
  | [] => true
  | x :: rest => negb (existsb (entry_eqb x) rest) && distinct rest
  end.

End Trace.

(* ================================================================== *)
(** * The MLproject manifest                                           *)
(* ================================================================== *)

Module MLproject.

(** A YAML scalar of the manifest: quoted text or an integer. *)
Inductive scalar : Type :=
| Text (s : string)
| Number (n : Z).

(** One entry under [parameters:]; both keys are optional in the format. *)
Record parameter : Type := {
  type : option string;
  default : option scalar
}.

Definition name : string := "mlflow_gcp".

Definition docker_env_image : string := "mlflow-gcp-example".

(** [entry_points.main.parameters], in the order of the file. *)
Definition parameters : list (string * parameter) :=
  [ ("job_dir",
     {| type := Some "string"; default := Some (Text "/tmp/") |});
    ("num_epochs",
     {| type := Some "int"; default := Some (Number 10) |});
    ("train_steps",
     {| type := Some "int"; default := Some (Number 1000) |});
    ("eval_steps",
     {| type := Some "int"; default := Some (Number 1) |});
    ("batch_size",
     {| type := Some "int"; default := Some (Number 64) |});
    ("train_files",
     {| type := Some "string";
        default := Some (Text "gs://cloud-samples-data/ml-engine/census/data/adult.data.csv") |});
    ("eval_files",
     {| type := Some "string";
        default := Some (Text "gs://cloud-samples-data/ml-engine/census/data/adult.test.csv") |});
    ("mlflow_tracking_uri",
     {| type := Some "uri"; default := Some (Text "") |}) ].

(** [entry_points.main.command]: the literal block scalar, without its
    indentation. *)
Definition command : string := "python -m trainer.task --job-dir {job_dir} \
    --num-epochs {num_epochs} \
    --train-steps {train_steps} \
    --eval-steps {eval_steps} \
    --train-files {train_files} \
    --eval-files {eval_files} \
    --batch-size {batch_size} \
    --mlflow-tracking-uri {mlflow_tracking_uri}
".

(** The [{name}] placeholders of a command template, in order of
    occurrence: the text between an opening brace and the next closing
    brace. *)
Fixpoint fields_from (s : string) (inside : option string) : list string :=
  match s with
  | EmptyString => []
  | String c rest =>
      match inside with
      | None =>
          if Ascii.eqb c "{" then fields_from rest (Some EmptyString)
          else fields_from rest None
      | Some text =>
          if Ascii.eqb c "}" then text :: fields_from rest None
          else fields_from rest (Some (text ++ String c EmptyString))
      end
  end.

Definition fields (s : string) : list string := fields_from s None.

Definition declared : list string := map fst parameters.

End MLproject.

(* ================================================================== *)
(** * Sample data                                                      *)
(* ================================================================== *)

Module Sample.
Import BigQuery.

(** A stand-in for the engine's functions and a small table, on which the
    statements below are exercised. *)
Definition sample_fingerprint (s : string) : Z :=
  if Nat.even (String.length s) then 2376 else -75.

Definition sample_cast (w : float) : string :=
  if PrimFloat.ltb w 7%float then "6.5" else "7.25".

Definition sample_round (w : float) : float := w.

Definition sample_row (y m : Z) (w : float) (male : bool) (age : Z) : natality :=
  {| year := Some y; month := Some m; weight_pounds := Some w;
     is_male := Some male; mother_age := Some age; plurality := Some 1;
     gestation_weeks := Some 39; cigarette_use := None; alcohol_use := None |}.

Definition sample_table : list natality :=
  [ sample_row 2005 3 6.5%float true 31;
    sample_row 1999 3 6.5%float true 31;
    sample_row 2005 9 7.25%float false 24;
    sample_row 2005 3 6.5%float false 19 ].

(** The same two births in the two orders in which a job may produce them:
    the first has an eval key, the second a train key. *)
Definition eval_first : list natality :=
  [ sample_row 2005 3 6.5%float true 31;
    sample_row 2005 9 7.25%float false 24 ].

Definition train_first : list natality :=
  [ sample_row 2005 9 7.25%float false 24;
    sample_row 2005 3 6.5%float true 31 ].

Definition sample_rows : list birth :=
  match base_query sample_fingerprint sample_cast sample_round sample_table 3 with
  | Some rows => rows
  | None => []
  end.

Definition blank : birth :=
  {| b_weight_pounds := None; b_is_male := None; b_mother_age := None;
     b_plurality := None; b_gestation_weeks := None; b_cigarette_use := None;
     b_alcohol_use := None; key := None |}.

Definition sample_train : list birth :=
  match run_train_query sample_rows with
  | Some rows => rows
  | None => []
  end.

Definition sample_eval : list birth :=
  match run_eval_query sample_rows with
  | Some rows => rows
  | None => []
  end.

(** A world in which every call succeeds and BigQuery answers the two split
    queries with the rows above. *)
Definition sample_world : Notebook.world :=
  {| Notebook.installed := Notebook.installed Trace.ideal;
     Notebook.authenticate := Notebook.authenticate Trace.ideal;
     Notebook.project_query := Notebook.project_query Trace.ideal;
     Notebook.table_download := fun q =>
       if String.eqb q Trace.train_query
       then inr (Csv.frame_of_births sample_train)
       else if String.eqb q Trace.eval_query
       then inr (Csv.frame_of_births sample_eval)
       else Notebook.table_download Trace.ideal q;
     Notebook.render_plot := Notebook.render_plot Trace.ideal;
     Notebook.make_directory := Notebook.make_directory Trace.ideal;
     Notebook.open_file := Notebook.open_file Trace.ideal;
     Notebook.shell := Notebook.shell Trace.ideal;
     Notebook.format_double := sample_cast |}.

End Sample.

(* ================================================================== *)
(** * The aggregation query of [get_distinct_values]                   *)
(* ================================================================== *)

Module Aggregate.
Import BigQuery.

(** A grouping key: the value of a Boolean or of an integer column, [NULL]
    included ([GROUP BY] keeps the [NULL]s together as one group). *)
Inductive datum : Type :=
| Flag (b : option bool)
| Whole (n : option Z).

Definition datum_eqb (a b : datum) : bool :=
  match a, b with
  | Flag (Some x), Flag (Some y) => Bool.eqb x y
  | Flag None, Flag None => true
  | Whole (Some x), Whole (Some y) => Z.eqb x y
  | Whole None, Whole None => true
  | _, _ => false
  end.

(** The column that a name denotes, for the Boolean and the integer columns
    of the table; [None] for any other name (the query of a name that is no
    column is rejected; grouping by the FLOAT64 column is left out). *)
Definition column (name : string) : option (natality -> datum) :=
  if String.eqb name "is_male" then Some (fun r => Flag (is_male r))
  else if String.eqb name "cigarette_use" then Some (fun r => Flag (cigarette_use r))
  else if String.eqb name "alcohol_use" then Some (fun r => Flag (alcohol_use r))
  else if String.eqb name "year" then Some (fun r => Whole (year r))
  else if String.eqb name "month" then Some (fun r => Whole (month r))
  else if String.eqb name "mother_age" then Some (fun r => Whole (mother_age r))
  else if String.eqb name "plurality" then Some (fun r => Whole (plurality r))
  else if String.eqb name "gestation_weeks" then Some (fun r => Whole (gestation_weeks r))
  else None.

(** A row of the answer: the value, [COUNT(1) AS num_babies] and
    [AVG(weight_pounds) AS avg_wt]. *)
Record group : Type := {
  value : datum;
  num_babies : Z;
  avg_wt : option float
}.

Section Query.

(** [AVG] over the weights of a group, a FLOAT64 computation left abstract. *)
Variable AVG : list (option float) -> option float.

(** [WHERE year > 2000]. *)
Definition kept (table : list natality) : list natality :=
  filter (fun r => is_true (int_gt (year r) 2000)) table.

Definition members (c : natality -> datum) (k : datum) (rows : list natality)
  : list natality :=
  filter (fun r => datum_eqb (c r) k) rows.

(** The values of the column, each once, in the order of first occurrence
    (the query has no [ORDER BY]; this order stands for the engine's). *)
Fixpoint distinct_values (c : natality -> datum) (rows : list natality)
  : list datum :=
  match rows with
  | [] => []
  | r :: rest =>
      c r :: filter (fun k => negb (datum_eqb (c r) k)) (distinct_values c rest)
  end.

(** [SELECT c, COUNT(1), AVG(weight_pounds) FROM natality WHERE year > 2000
    GROUP BY c]. *)
Definition group_by (c : natality -> datum) (table : list natality)
  : list group :=
  let rows := kept table in
  map (fun k =>
         {| value := k;
            num_babies := Z.of_nat (List.length (members c k rows));
            avg_wt := AVG (map weight_pounds (members c k rows)) |})
      (distinct_values c rows).

(** The answer to the query that [get_distinct_values(column_name)] sends. *)
Definition run_distinct_values_query (column_name : string)
    (table : list natality) : option (list group) :=
  match column column_name with
  | Some c => Some (group_by c table)
  | None => None
  end.

End Query.

(** The sizes of the groups of the values [ks], added up. *)
Definition sizes (c : natality -> datum) (ks : list datum)
    (rows : list natality) : nat :=
  fold_right (fun k acc => (List.length (members c k rows) + acc)%nat) 0%nat ks.

(** The sum of the [num_babies] of an answer. *)
Definition total (gs : list group) : Z :=
  fold_right (fun g acc => num_babies g + acc) 0 gs.

(** A stand-in for [AVG], on which the statements are exercised: the first
    weight of the group. *)
Definition sample_average (ws : list (option float)) : option float :=
  hd None ws.

End Aggregate.

(* ================================================================== *)
(** * What a cell sends and what a run prints                          *)
(* ================================================================== *)

Module Report.
Import R Notebook Trace.

(** The calls of cell 5, issued from cell number [i] under project [p]. *)
Definition query_calls (i : nat) (p : string) : list (nat * call) :=
  [ (i, BqProjectQuery p query_10000); (i, BqTableDownload query_10000) ].

(** The calls of cell 16, issued from cell number [i] under project [p]. *)
Definition split_calls (i : nat) (p : string) : list (nat * call) :=
  [ (i, BqProjectQuery p train_query); (i, BqTableDownload train_query);
    (i, BqProjectQuery p eval_query); (i, BqTableDownload eval_query) ].

(** The console of a run that completes: the values shown by cells 0 and 6
    to 8, the two counts of cell 17 and the listing of cell 19. *)
Definition reports (w : world) (x : log * result env) : Prop :=
  let (l, r) := x in
  match r with
  | Stop _ => True
  | Ok _ =>
      exists train_data eval_data status output,
        table_download w train_query = inr train_data /\
        table_download w eval_query = inr eval_data /\
        shell w "gsutil ls -l gs://r-on-gcp/data" = Exited status output /\
        console l =
          [ "version"; "head(natality_data)"; "str(natality_data)";
            "summary(natality_data)";
            paste0 [RChr "Training instances count: ";
                    RInt (Z.of_nat (Csv.nrow train_data))];
            paste0 [RChr "Evaluation instances count: ";
                    RInt (Z.of_nat (Csv.nrow eval_data))];
            String.concat Csv.eol output ]
  end.

End Report.

(* ================================================================== *)
(** * Counting separators; the words of the command template           *)
(* ================================================================== *)

Module Shape.

(** How many times the character [c] occurs in a text. *)
Fixpoint occurrences (c : ascii) (s : string) : nat :=
  match s with
  | EmptyString => O
  | String k rest =>
      if Ascii.eqb k c then S (occurrences c rest) else occurrences c rest
  end.

(** The words of a shell command: the pieces between blanks and newlines; a
    backslash on its own, which continues a line, is no word. *)
Definition close_word (word : string) (ws : list string) : list string :=
  if String.eqb word "" || String.eqb word (String Csv.backslash "")
  then ws else word :: ws.

Fixpoint words_from (s : string) (word : string) : list string :=
  match s with
  | EmptyString => close_word word []
  | String c rest =>
      if Ascii.eqb c " " || Ascii.eqb c Csv.newline
      then close_word word (words_from rest EmptyString)
      else words_from rest (word ++ String c EmptyString)
  end.

Definition words (s : string) : list string := words_from s EmptyString.

(** The command-line flag of a parameter: two hyphens, then the name with
    each underscore turned into a hyphen. *)
Fixpoint hyphenate (s : string) : string :=
  match s with
  | EmptyString => EmptyString
  | String c rest =>
      String (if Ascii.eqb c "_" then "-"%char else c) (hyphenate rest)
  end.

Definition flag_of (name : string) : string := "--" ++ hyphenate name.

Definition placeholder (name : string) : string := "{" ++ name ++ "}".

End Shape.

(* ================================================================== *)
(** * Facts about the split                                            *)
(* ================================================================== *)

Module SplitFacts.
Import BigQuery Sample.

(** ** Decimal numerals *)

Lemma all_digits_uint (d : uint) : all_digits (NilEmpty.string_of_uint d) = true.
Proof. induction d; simpl; auto. Qed.

Lemma all_digits_numeral (d : uint) : all_digits (NilZero.string_of_uint d) = true.
Proof. destruct d; try reflexivity; apply (all_digits_uint (_ _)). Qed.

Lemma digit_not_minus (c : ascii) : is_digit c = true -> Ascii.eqb c "-" = false.
Proof.
  destruct c as [[|] [|] [|] [|] [|] [|] [|] [|]]; vm_compute; congruence.
Qed.

Lemma digit_not_x (c : ascii) :
  is_digit c = true -> Ascii.eqb c "x" || Ascii.eqb c "X" = false.
Proof.
  destruct c as [[|] [|] [|] [|] [|] [|] [|] [|]]; vm_compute; congruence.
Qed.

Lemma digit_not_plus (c : ascii) : is_digit c = true -> Ascii.eqb c "+" = false.
Proof.
  destruct c as [[|] [|] [|] [|] [|] [|] [|] [|]]; vm_compute; congruence.
Qed.

Lemma digit_not_space (c : ascii) : is_digit c = true -> is_space c = false.
Proof.
  destruct c as [[|] [|] [|] [|] [|] [|] [|] [|]]; vm_compute; congruence.
Qed.

Lemma digits_not_hex (s : string) : all_digits s = true -> hex_body s = None.
Proof.
  destruct s as [|a [|b rest]]; simpl; trivial.
  intros H. apply andb_prop in H as [_ H]. apply andb_prop in H as [H _].
  now rewrite (digit_not_x _ H), andb_false_r.
Qed.

(** A string of digits has no white space to lose. *)
Lemma drop_trailing_digits (s : string) :
  all_digits s = true -> drop_trailing_spaces s = s.
Proof.
  induction s as [|c s IH]; simpl; trivial.
  intros H. apply andb_prop in H as [Hc Hs]. rewrite (IH Hs).
  destruct s; [now rewrite (digit_not_space c Hc) | reflexivity].
Qed.

Lemma trim_digits (s : string) : all_digits s = true -> trim s = s.
Proof.
  intros H. unfold trim. destruct s as [|c s]; trivial.
  pose proof H as Hc. simpl in Hc. apply andb_prop in Hc as [Hc _].
  simpl skip_spaces. rewrite (digit_not_space c Hc).
  now apply drop_trailing_digits.
Qed.

Lemma to_uint_nonneg (z : Z) :
  0 <= z -> exists d, Z.to_int z = Pos d /\ d <> Nil /\ Z.of_uint d = z.
Proof.
  intros Hz. pose proof (DecimalZ.of_to z) as Hoz.
  destruct z as [|p|p]; try lia; simpl in *.
  - exists Decimal.zero. repeat split; try easy.
  - exists (Pos.to_uint p). repeat split; trivial.
    apply DecimalPos.Unsigned.to_uint_nonnil.
Qed.

(** [CAST(CAST(z AS STRING) AS INT64) = z] for a non-negative INT64. *)
Lemma cast_roundtrip (z : Z) :
  0 <= z <= INT64_MAX ->
  CAST_STRING_AS_INT64 (CAST_INT64_AS_STRING z) = Val z.
Proof.
  intros [Hz Hmax]. destruct (to_uint_nonneg z Hz) as (d & Hd & Hnil & Hof).
  unfold CAST_INT64_AS_STRING. rewrite Hd. simpl NilZero.string_of_int.
  pose proof (all_digits_numeral d) as Hdig.
  pose proof (NilZero.usu d Hnil) as Husu.
  unfold CAST_STRING_AS_INT64. rewrite (trim_digits _ Hdig).
  destruct (NilZero.string_of_uint d) as [|c rest] eqn:Hs.
  - discriminate Husu.
  - assert (Hc : is_digit c = true) by (simpl in Hdig; now apply andb_prop in Hdig).
    rewrite (digit_not_minus c Hc), (digit_not_plus c Hc).
    unfold magnitude. rewrite (digits_not_hex _ Hdig), Husu. simpl option_map.
    rewrite Hof.
    replace (in_int64 z) with true; trivial.
    symmetry. unfold in_int64, INT64_MIN, INT64_MAX in *.
    apply andb_true_intro; split; apply Z.leb_le; lia.
Qed.

(** ** The partition value and the two conditions on a numeral key *)

Lemma partition_value_numeral (z : Z) :
  0 <= z <= INT64_MAX ->
  partition_value (Some (CAST_INT64_AS_STRING z)) = Val (z mod 100).
Proof.
  intros Hz. unfold partition_value. simpl col. unfold bind at 1.
  rewrite (cast_roundtrip z Hz). simpl. unfold MOD. simpl.
  now rewrite Z.rem_mod_nonneg by lia.
Qed.

Lemma conditions_numeral (z : Z) :
  0 <= z <= INT64_MAX ->
  train_condition (Some (CAST_INT64_AS_STRING z)) = Val (z mod 100 <=? 75) /\
  eval_condition (Some (CAST_INT64_AS_STRING z)) = Val (75 <? z mod 100).
Proof.
  intros Hz. unfold train_condition, eval_condition.
  now rewrite (partition_value_numeral z Hz).
Qed.

Lemma numeral_key_exclusive (k : option string) :
  numeral_key k ->
  exists b, train_condition k = Val b /\ eval_condition k = Val (negb b).
Proof.
  intros (z & Hz & ->). destruct (conditions_numeral z Hz) as [Ht He].
  exists (z mod 100 <=? 75). split; trivial.
  rewrite He. f_equal. now rewrite Z.leb_antisym, negb_involutive.
Qed.

(** ** [SELECT * ... WHERE] as a filter *)

Lemma select_where_filter cond rows kept :
  select_where cond rows = Some kept ->
  kept = filter (fun r => is_true (cond r)) rows.
Proof.
  revert kept. induction rows as [|r rest IH]; simpl; intros kept H.
  - now injection H as <-.
  - destruct (select_where cond rest) as [kept'|].
    + rewrite <- (IH kept' eq_refl).
      destruct (cond r) as [| |[|]]; simpl in *; congruence.
    + destruct (cond r); discriminate.
Qed.

Lemma select_where_total cond rows :
  (forall r, In r rows -> cond r <> Raise) ->
  select_where cond rows = Some (filter (fun r => is_true (cond r)) rows).
Proof.
  induction rows as [|r rest IH]; simpl; intros H; trivial.
  rewrite IH by auto.
  assert (Hr : cond r <> Raise) by auto.
  destruct (cond r) as [| |[|]]; simpl; congruence.
Qed.

Lemma filter_complement_perm {A : Type} (f g : A -> bool) (l : list A) :
  (forall x, In x l -> g x = negb (f x)) ->
  Permutation l (filter f l ++ filter g l).
Proof.
  induction l as [|a l IH]; simpl; intros H; [constructor|].
  rewrite (H a) by auto.
  assert (IH' := IH (fun x Hx => H x (or_intror Hx))).
  destruct (f a); simpl.
  - now constructor.
  - now apply Permutation_cons_app.
Qed.

Lemma in_firstn {A : Type} (n : nat) (l : list A) (x : A) :
  In x (firstn n l) -> In x l.
Proof.
  intros H. rewrite <- (firstn_skipn n l). apply in_or_app. now left.
Qed.

Section BaseQueryFacts.

Variable FARM_FINGERPRINT : string -> Z.
Variable CAST_FLOAT64_AS_STRING : float -> string.
Variable ROUND2 : float -> float.

(** [FARM_FINGERPRINT] returns an INT64. *)
Hypothesis fingerprint_int64 : forall s, in_int64 (FARM_FINGERPRINT s) = true.

Let key_text := key_text CAST_FLOAT64_AS_STRING.
Let key_column := key_column FARM_FINGERPRINT CAST_FLOAT64_AS_STRING.
Let select_list := select_list FARM_FINGERPRINT CAST_FLOAT64_AS_STRING ROUND2.
Let base_query := base_query FARM_FINGERPRINT CAST_FLOAT64_AS_STRING ROUND2.

Lemma abs_fingerprint (s : string) (a : Z) :
  ABS (FARM_FINGERPRINT s) = Val a ->
  a = Z.abs (FARM_FINGERPRINT s) /\ 0 <= a <= INT64_MAX.
Proof.
  unfold ABS. pose proof (fingerprint_int64 s) as H.
  unfold in_int64, INT64_MIN, INT64_MAX in *.
  apply andb_prop in H as [Hlo Hhi].
  apply Z.leb_le in Hlo. apply Z.leb_le in Hhi.
  destruct (Z.eqb_spec (FARM_FINGERPRINT s) (- 2 ^ 63)); [discriminate|].
  intros [= <-]. lia.
Qed.

Lemma key_column_val (r : natality) (s : string) :
  key_column r = Val s ->
  exists t, key_text r = Val t /\
            ABS (FARM_FINGERPRINT t) = Val (Z.abs (FARM_FINGERPRINT t)) /\
            s = CAST_INT64_AS_STRING (Z.abs (FARM_FINGERPRINT t)).
Proof.
  unfold key_column, BigQuery.key_column. fold key_text.
  destruct (key_text r) as [| |t]; simpl; try discriminate.
  destruct (ABS (FARM_FINGERPRINT t)) as [| |a] eqn:Ha; simpl; try discriminate.
  intros [= <-]. exists t. destruct (abs_fingerprint t a Ha) as [-> _].
  auto.
Qed.

(** The [WHERE] clause only keeps rows whose [year], [month] and
    [weight_pounds] are not [NULL], so that the key of a returned row is
    never [NULL]. *)
Lemma where_clause_key_text (r : natality) :
  is_true (where_clause r) = true -> exists t, key_text r = Val t.
Proof.
  unfold where_clause, key_text, BigQuery.key_text, int_gt, float_gt0.
  destruct (year r), (month r), (weight_pounds r); simpl; eauto;
    repeat match goal with
           | |- context [col ?c] => destruct c; simpl
           | |- context [?a <? ?b] => destruct (a <? b); simpl
           | |- context [PrimFloat.ltb ?a ?b] => destruct (PrimFloat.ltb a b); simpl
           end; try discriminate; eauto.
Qed.

Lemma select_list_key (r : natality) (b : birth) :
  is_true (where_clause r) = true ->
  select_list r = Some b -> numeral_key (key b).
Proof.
  intros Hw. destruct (where_clause_key_text r Hw) as [t Ht].
  unfold select_list, BigQuery.select_list. fold key_column.
  destruct (key_column r) as [| |s] eqn:Hk; try discriminate.
  - unfold key_column, BigQuery.key_column in Hk. fold key_text in Hk.
    rewrite Ht in Hk. simpl in Hk.
    unfold ABS in Hk. destruct (_ =? _) in Hk; discriminate.
  - intros [= <-]. simpl.
    destruct (key_column_val r s Hk) as (t' & Ht' & Habs & ->).
    exists (Z.abs (FARM_FINGERPRINT t')). split; trivial.
    now apply (abs_fingerprint t').
Qed.

Lemma select_all_keys (src : list natality) (rows : list birth) :
  Forall (fun r => is_true (where_clause r) = true) src ->
  BigQuery.select_all FARM_FINGERPRINT CAST_FLOAT64_AS_STRING ROUND2 src
    = Some rows ->
  Forall (fun b => numeral_key (key b)) rows.
Proof.
  revert rows. induction src as [|r src IH]; simpl; intros rows Hsrc H.
  - injection H as <-. constructor.
  - inversion Hsrc as [|? ? Hr Hrest]; subst.
    fold select_list in H.
    destruct (select_list r) as [b|] eqn:Hb; try discriminate.
    destruct (select_all _ _ _ src) as [bs|]; try discriminate.
    injection H as <-. constructor; eauto using select_list_key.
Qed.

Lemma base_query_keys (table : list natality) (limit : nat) (rows : list birth) :
  base_query table limit = Some rows ->
  Forall (fun b => numeral_key (key b)) rows.
Proof.
  unfold base_query, BigQuery.base_query. apply select_all_keys.
  apply Forall_forall. intros r Hr.
  apply in_firstn in Hr. apply filter_In in Hr. tauto.
Qed.

Lemma is_true_val (c : sql bool) : is_true c = true <-> c = Val true.
Proof. destruct c as [| |[|]]; simpl; split; congruence. Qed.

(** On rows whose keys are numerals, each split query is a filter, and the
    two filters are complementary. *)
Lemma split_of_numeral_rows (rows : list birth) :
  (forall r, In r rows -> numeral_key (key r)) ->
  run_train_query rows
  = Some (filter (fun r => is_true (train_condition (key r))) rows) /\
  run_eval_query rows
  = Some (filter (fun r => is_true (eval_condition (key r))) rows) /\
  (forall r, In r rows ->
     is_true (eval_condition (key r))
     = negb (is_true (train_condition (key r)))).
Proof.
  intros Hkeys.
  assert (Hex : forall r, In r rows ->
            exists b, train_condition (key r) = Val b /\
                      eval_condition (key r) = Val (negb b))
    by (intros r Hr; apply numeral_key_exclusive; auto).
  split; [|split].
  - apply select_where_total. intros r Hr.
    destruct (Hex r Hr) as (b & -> & _). discriminate.
  - apply select_where_total. intros r Hr.
    destruct (Hex r Hr) as (b & _ & ->). discriminate.
  - intros r Hr. destruct (Hex r Hr) as (b & -> & ->). now destruct b.
Qed.

(** C1 (as amended).  Every record returned by a job of the base query has a
    key that is the numeral of a non-negative INT64, and on such a record
    exactly one of the two split conditions is [TRUE] (the other is [FALSE];
    neither is [NULL] or an error).  [train_query] and [eval_query] are two
    jobs, each of which runs the inner query again; whatever rows the inner
    query returns in each, both jobs succeed, [train_data] holds the records
    of its inner result on which the train condition is [TRUE], [eval_data]
    those of its own on which the eval condition is [TRUE], and no record is
    in both.  When the two inner results are the same rows, every record of
    that result is in one of the two, which together are a rearrangement of
    it. *)
Theorem split_is_partition (scan_train scan_eval : list natality) (limit : nat)
    (inner_train inner_eval : list birth) :
  base_query scan_train limit = Some inner_train ->
  base_query scan_eval limit = Some inner_eval ->
  (forall r, In r inner_train \/ In r inner_eval ->
     numeral_key (key r) /\
     exists b, train_condition (key r) = Val b /\
               eval_condition (key r) = Val (negb b)) /\
  exists train_data eval_data,
    train_job FARM_FINGERPRINT CAST_FLOAT64_AS_STRING ROUND2 scan_train limit
    = Some train_data /\
    eval_job FARM_FINGERPRINT CAST_FLOAT64_AS_STRING ROUND2 scan_eval limit
    = Some eval_data /\
    (forall r, In r train_data <->
               In r inner_train /\ train_condition (key r) = Val true) /\
    (forall r, In r eval_data <->
               In r inner_eval /\ eval_condition (key r) = Val true) /\
    (forall r, In r train_data -> In r eval_data -> False) /\
    (inner_train = inner_eval ->
     (forall r, In r inner_train <-> In r train_data \/ In r eval_data) /\
     Permutation inner_train (train_data ++ eval_data)).
Proof.
  intros Ht He.
  pose proof (base_query_keys _ _ _ Ht) as Kt.
  pose proof (base_query_keys _ _ _ He) as Ke.
  rewrite Forall_forall in Kt, Ke.
  assert (Hkeys : forall r, In r inner_train \/ In r inner_eval ->
                            numeral_key (key r))
    by (intros r [Hr|Hr]; auto).
  split.
  { intros r Hr. split; [auto|]. apply numeral_key_exclusive. auto. }
  destruct (split_of_numeral_rows inner_train Kt) as (Rt & _ & Nt).
  destruct (split_of_numeral_rows inner_eval Ke) as (_ & Re & _).
  exists (filter (fun r => is_true (train_condition (key r))) inner_train),
         (filter (fun r => is_true (eval_condition (key r))) inner_eval).
  unfold train_job, eval_job. fold base_query. rewrite Ht, He.
  split; [exact Rt|]. split; [exact Re|].
  split; [intros r; now rewrite filter_In, is_true_val|].
  split; [intros r; now rewrite filter_In, is_true_val|].
  split.
  - intros r Hrt Hre.
    apply filter_In in Hrt as [Hr Hrt]. apply filter_In in Hre as [_ Hre].
    destruct (numeral_key_exclusive (key r) (Kt r Hr)) as (b & Hb & Hnb).
    rewrite Hb in Hrt. rewrite Hnb in Hre. now destruct b.
  - intros <-. split.
    + intros r. rewrite !filter_In. split; [|tauto].
      intros Hr. rewrite (Nt r Hr).
      destruct (is_true (train_condition (key r))); auto.
    + now apply filter_complement_perm.
Qed.

(** C3.  Whenever the key column of a source row has a value [s], it is the
    numeral of [z = ABS(FARM_FINGERPRINT(text))] with [0 <= z <= INT64_MAX];
    casting it back gives [z]; the partition value is [z mod 100], between 0
    and 99; the train condition is [TRUE] exactly for a partition value in
    0..75 and the eval condition exactly for one in 76..99.  Among the
    hundred residues 0..99 the train condition selects the 76 residues 0..75
    and the eval condition the 24 residues 76..99. *)
Theorem key_partition_range (r : natality) (s : string) :
  key_column r = Val s ->
  (exists t z m,
     key_text r = Val t /\ ABS (FARM_FINGERPRINT t) = Val z /\
     0 <= z <= INT64_MAX /\ s = CAST_INT64_AS_STRING z /\
     CAST_STRING_AS_INT64 s = Val z /\
     partition_value (Some s) = Val m /\ m = z mod 100 /\ 0 <= m <= 99 /\
     (train_condition (Some s) = Val true <-> 0 <= m <= 75) /\
     (train_condition (Some s) = Val false <-> 76 <= m <= 99) /\
     (eval_condition (Some s) = Val true <-> 76 <= m <= 99) /\
     (eval_condition (Some s) = Val false <-> 0 <= m <= 75)) /\
  (let residues := map Z.of_nat (seq 0 100) in
   let numeral m := Some (CAST_INT64_AS_STRING m) in
   filter (fun m => is_true (train_condition (numeral m))) residues
     = map Z.of_nat (seq 0 76) /\
   filter (fun m => is_true (eval_condition (numeral m))) residues
     = map Z.of_nat (seq 76 24)).
Proof.
  intros Hk. split; [|split; vm_compute; reflexivity].
  destruct (key_column_val r s Hk) as (t & Ht & Habs & ->).
  set (z := Z.abs (FARM_FINGERPRINT t)) in *.
  assert (Hz : 0 <= z <= INT64_MAX) by now apply (abs_fingerprint t).
  destruct (conditions_numeral z Hz) as [Htr Hev].
  assert (Hm : 0 <= z mod 100 < 100) by (apply Z.mod_pos_bound; lia).
  exists t, z, (z mod 100).
  rewrite Htr, Hev, (cast_roundtrip z Hz), (partition_value_numeral z Hz).
  destruct (Z.leb_spec (z mod 100) 75), (Z.ltb_spec 75 (z mod 100));
    repeat split; intros; try assumption; try reflexivity; try discriminate; try lia.
Qed.

(** C10.  The key only reads [year], [month] and [weight_pounds]: two source
    rows that agree on these three columns have the same key column (value,
    [NULL] or error alike), the same key in the query's result, and the same
    train and eval conditions, whatever their other columns are. *)
Theorem key_reads_three_columns (r1 r2 : natality) :
  year r1 = year r2 -> month r1 = month r2 ->
  weight_pounds r1 = weight_pounds r2 ->
  key_column r1 = key_column r2 /\
  option_map key (select_list r1) = option_map key (select_list r2) /\
  (forall b1 b2, select_list r1 = Some b1 -> select_list r2 = Some b2 ->
     key b1 = key b2 /\
     train_condition (key b1) = train_condition (key b2) /\
     eval_condition (key b1) = eval_condition (key b2)).
Proof.
  intros Hy Hm Hw.
  assert (Hk : key_column r1 = key_column r2).
  { unfold key_column, BigQuery.key_column, BigQuery.key_text.
    now rewrite Hy, Hm, Hw. }
  assert (Ho : option_map key (select_list r1) = option_map key (select_list r2)).
  { unfold select_list, BigQuery.select_list. fold key_column. rewrite Hk.
    now destruct (key_column r2). }
  split; [exact Hk|]. split; [exact Ho|].
  intros b1 b2 H1 H2. rewrite H1, H2 in Ho. simpl in Ho.
  injection Ho as ->. repeat split.
Qed.

End BaseQueryFacts.

(** C2.  The assignment of a record is a function of its partition value
    [MOD(CAST(key AS INT64), 100)], hence of its key: two records of the base
    result with equal keys have equal partition values, and two records with
    equal partition values have equal train and eval conditions and are
    together in, or together out of, [train_data] and [eval_data]. *)
Theorem split_deterministic (rows train_data eval_data : list birth) (r1 r2 : birth) :
  run_train_query rows = Some train_data ->
  run_eval_query rows = Some eval_data ->
  In r1 rows -> In r2 rows ->
  (key r1 = key r2 -> partition_value (key r1) = partition_value (key r2)) /\
  (partition_value (key r1) = partition_value (key r2) ->
   train_condition (key r1) = train_condition (key r2) /\
   eval_condition (key r1) = eval_condition (key r2) /\
   (In r1 train_data <-> In r2 train_data) /\
   (In r1 eval_data <-> In r2 eval_data)).
Proof.
  intros Ht He H1 H2.
  apply select_where_filter in Ht. apply select_where_filter in He. subst.
  split; [now intros ->|]. intros Hp.
  assert (Htr : train_condition (key r1) = train_condition (key r2))
    by (unfold train_condition; now rewrite Hp).
  assert (Hev : eval_condition (key r1) = eval_condition (key r2))
    by (unfold eval_condition; now rewrite Hp).
  repeat split; trivial; rewrite !filter_In; rewrite ?Htr, ?Hev; tauto.
Qed.

Lemma sample_fingerprint_int64 (s : string) : in_int64 (sample_fingerprint s) = true.
Proof. unfold sample_fingerprint. now destruct (Nat.even _). Qed.

Lemma split_is_partition_witness :
  exists train_data eval_data,
    train_job sample_fingerprint sample_cast sample_round sample_table 3
    = Some train_data /\
    eval_job sample_fingerprint sample_cast sample_round sample_table 3
    = Some eval_data /\
    (forall r, In r train_data -> In r eval_data -> False) /\
    (forall r, In r sample_rows <-> In r train_data \/ In r eval_data) /\
    Permutation sample_rows (train_data ++ eval_data).
Proof.
  destruct (split_is_partition sample_fingerprint sample_cast sample_round
              sample_fingerprint_int64 sample_table sample_table 3
              sample_rows sample_rows eq_refl eq_refl)
    as (_ & train_data & eval_data & Ht & He & _ & _ & Hd & Hsame).
  exists train_data, eval_data. destruct (Hsame eq_refl) as [Hcover Hperm].
  split; [exact Ht|]. split; [exact He|]. split; [exact Hd|].
  split; [exact Hcover | exact Hperm].
Defined.

(** C1 (as stated) fails when the jobs do not produce the rows in the same
    order.  On a table of two births, with [LIMIT 1]: a job that sees the
    eval row first returns that row alone; the train job over this order and
    the eval job over the other order both return nothing, so the record of
    the base result is in neither set; with the orders exchanged the two
    sets hold two records, one more than any base result. *)
Lemma split_can_miss_records :
  Permutation eval_first train_first /\
  (exists b,
     base_query sample_fingerprint sample_cast sample_round eval_first 1
     = Some [b] /\
     train_job sample_fingerprint sample_cast sample_round eval_first 1
     = Some [] /\
     eval_job sample_fingerprint sample_cast sample_round train_first 1
     = Some []) /\
  (exists t e,
     train_job sample_fingerprint sample_cast sample_round train_first 1
     = Some [t] /\
     eval_job sample_fingerprint sample_cast sample_round eval_first 1
     = Some [e] /\
     t <> e).
Proof.
  split; [apply perm_swap|].
  split.
  - eexists. repeat split; vm_compute; reflexivity.
  - do 2 eexists. split; [vm_compute; reflexivity|].
    split; [vm_compute; reflexivity|]. discriminate.
Qed.

Lemma split_deterministic_witness :
  let r1 := nth 0 sample_rows blank in
  let r2 := nth 2 sample_rows blank in
  r1 <> r2 /\ key r1 = key r2 /\
  train_condition (key r1) = train_condition (key r2) /\
  (In r1 [r1; r2] <-> In r2 [r1; r2]).
Proof.
  intros r1 r2.
  assert (H1 : In r1 sample_rows) by (vm_compute; tauto).
  assert (H2 : In r2 sample_rows) by (vm_compute; tauto).
  destruct (split_deterministic sample_rows [nth 1 sample_rows blank] [r1; r2]
              r1 r2 eq_refl eq_refl H1 H2) as [_ H].
  destruct (H eq_refl) as (Htr & _ & _ & Hev).
  split; [vm_compute; discriminate|].
  split; [reflexivity|]. split; assumption.
Defined.

Lemma key_partition_range_witness :
  exists t z m,
    key_text sample_cast (sample_row 2005 9 7.25%float false 24) = Val t /\
    ABS (sample_fingerprint t) = Val z /\
    0 <= z <= INT64_MAX /\ "75" = CAST_INT64_AS_STRING z /\
    CAST_STRING_AS_INT64 "75" = Val z /\
    partition_value (Some "75") = Val m /\ m = z mod 100 /\ 0 <= m <= 99 /\
    (train_condition (Some "75") = Val true <-> 0 <= m <= 75) /\
    (train_condition (Some "75") = Val false <-> 76 <= m <= 99) /\
    (eval_condition (Some "75") = Val true <-> 76 <= m <= 99) /\
    (eval_condition (Some "75") = Val false <-> 0 <= m <= 75).
Proof.
  apply (key_partition_range sample_fingerprint sample_cast
           sample_fingerprint_int64
           (sample_row 2005 9 7.25%float false 24) "75").
  reflexivity.
Defined.

Lemma key_reads_three_columns_witness :
  let r1 := sample_row 2005 3 6.5%float true 31 in
  let r2 := sample_row 2005 3 6.5%float false 19 in
  r1 <> r2 /\
  key_column sample_fingerprint sample_cast r1
    = key_column sample_fingerprint sample_cast r2.
Proof.
  intros r1 r2. split; [discriminate|].
  apply (key_reads_three_columns sample_fingerprint sample_cast sample_round r1 r2);
    reflexivity.
Defined.

End SplitFacts.

(* ================================================================== *)
(** * Facts about the query template                                   *)
(* ================================================================== *)

Module TemplateFacts.
Import R Notebook Trace.

(** ** [sprintf] on text without a percent sign *)

Lemma sprintf_plain (s : string) (args : list rvalue) :
  mentions "%" s = false -> sprintf s args = Some s.
Proof.
  induction s as [|c rest IH]; simpl; trivial.
  intros H. apply orb_false_elim in H as [Hc Hrest].
  rewrite Hc, (IH Hrest). reflexivity.
Qed.

Lemma sprintf_after_plain (h rest : string) (args : list rvalue) :
  mentions "%" h = false ->
  sprintf (h ++ rest) args = option_map (String.append h) (sprintf rest args).
Proof.
  induction h as [|c h IH]; simpl; intros H.
  - now destruct (sprintf rest args).
  - apply orb_false_elim in H as [Hc Hh].
    rewrite Hc, (IH Hh). now destruct (sprintf rest args).
Qed.

Lemma placeholders_plain (s : string) :
  mentions "%" s = false -> placeholders s = 0%nat.
Proof.
  induction s as [|c rest IH]; simpl; trivial.
  intros H. apply orb_false_elim in H as [Hc Hrest].
  rewrite Hc. auto.
Qed.

Lemma template_parts :
  sql_query_template = template_head ++ "%s" ++ template_tail.
Proof. vm_compute. reflexivity. Qed.

Lemma template_head_plain : mentions "%" template_head = false.
Proof. vm_compute. reflexivity. Qed.

Lemma template_tail_plain : mentions "%" template_tail = false.
Proof. vm_compute. reflexivity. Qed.

(** One argument fills the placeholder; further arguments are ignored. *)
Lemma sprintf_template_any (v : rvalue) (args : list rvalue) :
  sprintf sql_query_template (v :: args)
  = Some (template_head ++ as_character v ++ template_tail).
Proof.
  rewrite template_parts, (sprintf_after_plain _ _ _ template_head_plain).
  change (sprintf ("%s" ++ template_tail) (v :: args))
    with (option_map (String.append (as_character v))
            (sprintf template_tail args)).
  now rewrite (sprintf_plain _ _ template_tail_plain).
Qed.

(** ** When [as.character] of a whole number is its decimal numeral *)

Lemma length_append (a b : string) :
  String.length (a ++ b) = (String.length a + String.length b)%nat.
Proof. induction a; simpl; auto. Qed.

Lemma scientific_not_shorter (digits : string) :
  (String.length digits <= 5)%nat ->
  (String.length digits <= String.length (scientific digits))%nat.
Proof.
  intros H. unfold scientific.
  destruct (strip_zeros digits) as [|c [|c' more]]; trivial.
  - destruct digits as [|c1 [|c2 [|c3 [|c4 [|c5 [|c6 r]]]]]];
      simpl in *; lia.
  - simpl. rewrite length_append. simpl. lia.
Qed.

Lemma short_numeral_is_fixed (n : Z) :
  0 <= n -> (String.length (numeral n) <= 5)%nat ->
  as_character (RNum n) = numeral n.
Proof.
  intros Hn Hlen. simpl. unfold as_character_num.
  apply scientific_not_shorter in Hlen. apply Nat.leb_le in Hlen.
  rewrite Hlen. destruct (Z.ltb_spec n 0); [lia | reflexivity].
Qed.

(** X16.  The template holds exactly one [%s], at the end of its [LIMIT]
    clause: it is [template_head ++ "%s" ++ template_tail], where
    [template_head] ends in ["LIMIT "], [template_tail] is a newline and
    neither holds a percent sign.  For every argument [v], [sprintf] returns
    the template with [%s] replaced by [as.character(v)] and nothing else
    changed; without an argument it fails.  For a whole number [n >= 0] whose
    decimal numeral has at most five digits, and so for [sample_size = 10000],
    [as.character(n)] is that numeral. *)
Theorem limit_substitution :
  placeholders sql_query_template = 1%nat /\
  sql_query_template = template_head ++ "%s" ++ template_tail /\
  mentions "%" template_head = false /\
  template_tail = Csv.eol /\
  (exists clauses, template_head = clauses ++ "LIMIT ") /\
  (forall v args,
     sprintf sql_query_template (v :: args)
     = Some (template_head ++ as_character v ++ template_tail)) /\
  sprintf sql_query_template [] = None /\
  (forall n, 0 <= n /\ (String.length (numeral n) <= 5)%nat ->
             as_character (RNum n) = numeral n) /\
  sprintf sql_query_template [RNum 10000]
  = Some (template_head ++ "10000" ++ template_tail).
Proof.
  split; [vm_compute; reflexivity|].
  split; [exact template_parts|].
  split; [exact template_head_plain|].
  split; [vm_compute; reflexivity|].
  split; [exists (substring 0 541 sql_query_template); vm_compute; reflexivity|].
  split; [exact sprintf_template_any|].
  split; [vm_compute; reflexivity|].
  split; [intros n [Hn Hlen]; now apply short_numeral_is_fixed|].
  apply sprintf_template_any.
Qed.


End TemplateFacts.

(* ================================================================== *)
(** * Facts about a run of the notebook                                *)
(* ================================================================== *)

Module RunFacts.
Import R Notebook Trace.
#[local] Open Scope list_scope.

(** ** The two [sprintf] calls *)

Lemma sprintf_template :
  sprintf sql_query_template [RNum 10000] = Some query_10000.
Proof. vm_compute. reflexivity. Qed.

Lemma sprintf_query :
  sprintf query_10000 [RNum 10000] = Some query_10000.
Proof. vm_compute. reflexivity. Qed.

(** ** Symbolic execution of the cells *)

(** The term on which evaluation is blocked: the innermost scrutinee. *)
Ltac scrutinee t :=
  lazymatch t with
  | match ?x with _ => _ end => scrutinee x
  | (match ?x with _ => _ end) _ => scrutinee x
  | (match ?x with _ => _ end) _ _ => scrutinee x
  | (match ?x with _ => _ end) _ _ _ => scrutinee x
  | _ => t
  end.

(** Unfold the cells and the monad, but neither [sprintf] nor the query
    texts. *)
Ltac evaluate :=
  cbv beta iota zeta delta
    [run run_cells notebook cell_0 cell_1 cell_2 cell_3 cell_4 cell_5 cell_6
     cell_7 cell_8 cell_9 cell_10 cell_11 cell_12 cell_13 cell_14 cell_15
     cell_16 cell_17 cell_18 cell_19 distinct_values_cell get_distinct_values
     bind ret stop external signalled show need_atom need_chr need_frame
     need_function library bq_auth bq_project_query bq_table_download ggplot
     r_sprintf dir_create write_table system system_intern assign lookup
     log_call log_console log_file empty_log
     String.eqb Ascii.eqb Bool.eqb andb negb implb orb List.app List.existsb
     calls console files fst snd outcome
     until_error raised canonical distinct_values_calls project
     train_query eval_query uploading both_written is_system
     paste paste0 String.concat String.append List.map as_character].

Ltac run_step :=
  lazymatch goal with
  | |- ?g =>
      let s := scrutinee g in
      lazymatch s with
      | sprintf _ _ => first [rewrite sprintf_template | rewrite sprintf_query]
      | _ => destruct s
      end;
      evaluate
  end.

Lemma run_agrees (w : world) : agrees w (run w).
Proof.
  unfold agrees. evaluate. repeat run_step.
  all: repeat split; try reflexivity.
  do 2 eexists. repeat split; reflexivity.
Qed.

End RunFacts.

(* ================================================================== *)
(** * The order of the calls and the propagation of errors             *)
(* ================================================================== *)

Module OrderFacts.
Import R Notebook Trace.
#[local] Open Scope list_scope.

(** ** Lists cut after the first error *)

Lemma until_error_prefix (w : world) (cs : list (nat * call)) :
  exists k, fst (until_error w cs) = firstn k cs.
Proof.
  induction cs as [|[i c] rest [k IH]]; simpl.
  - now exists 0%nat.
  - destruct (raised w c).
    + now exists 1%nat.
    + destruct (until_error w rest) as [t o]. exists (S k).
      simpl in *. now rewrite IH.
Qed.

Lemma until_error_completes (w : world) (cs : list (nat * call)) :
  snd (until_error w cs) = None ->
  fst (until_error w cs) = cs /\
  forall x, In x cs -> raised w (snd x) = None.
Proof.
  induction cs as [|[i c] rest IH]; simpl.
  - intros _. split; [reflexivity | intros x []].
  - destruct (raised w c) eqn:Hc; [discriminate|].
    destruct (until_error w rest) as [t o]. simpl in *. intros Ho.
    destruct (IH Ho) as [-> Hall]. split; trivial.
    intros x [<-|Hx]; auto.
Qed.

Lemma until_error_stops (w : world) (cs : list (nat * call)) (e : condition) :
  snd (until_error w cs) = Some e ->
  exists pre x,
    fst (until_error w cs) = pre ++ [x] /\
    raised w (snd x) = Some e /\
    forall y, In y pre -> raised w (snd y) = None.
Proof.
  induction cs as [|[i c] rest IH]; simpl; [discriminate|].
  destruct (raised w c) eqn:Hc.
  - intros [= <-]. exists [], (i, c). repeat split; trivial. intros y [].
  - destruct (until_error w rest) as [t o]. simpl in *. intros Ho.
    destruct (IH Ho) as (pre & x & -> & Hx & Hpre).
    exists ((i, c) :: pre), x. repeat split; trivial.
    intros y [<-|Hy]; auto.
Qed.

(** The first call that signals an error decides the run. *)
Lemma until_error_first (w : world) (pre post : list (nat * call))
    (x : nat * call) (e : condition) :
  (forall y, In y pre -> raised w (snd y) = None) ->
  raised w (snd x) = Some e ->
  until_error w (pre ++ x :: post) = (pre ++ [x], Some e).
Proof.
  intros Hpre Hx. induction pre as [|[i c] pre IH]; simpl.
  - destruct x as [i c]. simpl in Hx. now rewrite Hx.
  - pose proof (Hpre (i, c) (or_introl eq_refl)) as Hc. simpl in Hc.
    rewrite Hc, IH; trivial. intros y Hy. apply Hpre. now right.
Qed.

(** Only the errors of a world matter. *)
Lemma until_error_same (w w' : world) (cs : list (nat * call)) :
  (forall x, In x cs -> raised w' (snd x) = raised w (snd x)) ->
  until_error w' cs = until_error w cs.
Proof.
  induction cs as [|[i c] rest IH]; simpl; intros H; trivial.
  pose proof (H (i, c) (or_introl eq_refl)) as Hc. simpl in Hc.
  rewrite Hc, IH by (intros x Hx; apply H; now right). reflexivity.
Qed.

Lemma until_error_quiet (w : world) (cs : list (nat * call)) :
  (forall x, In x cs -> raised w (snd x) = None) ->
  until_error w cs = (cs, None).
Proof.
  induction cs as [|[i c] rest IH]; simpl; intros H; trivial.
  pose proof (H (i, c) (or_introl eq_refl)) as Hc. simpl in Hc.
  rewrite Hc, IH by (intros x Hx; apply H; now right). reflexivity.
Qed.

(** ** Lists *)

Lemma firstn_split {A : Type} (k : nat) (l pre post : list A) (x : A) :
  firstn k l = pre ++ x :: post -> l = pre ++ x :: (post ++ skipn k l).
Proof.
  intros H. rewrite <- (firstn_skipn k l) at 1. rewrite H.
  now rewrite <- app_assoc.
Qed.

(** When no element of [front] satisfies [p], an element that does lies
    beyond [front]. *)
Lemma front_is_passed {A : Type} (p : A -> bool) (front back pre rest : list A)
    (x : A) :
  front ++ back = pre ++ x :: rest ->
  forallb (fun y => negb (p y)) front = true ->
  p x = true ->
  exists mid, pre = front ++ mid.
Proof.
  revert pre. induction front as [|a front IH]; simpl; intros pre H Hf Hx.
  - now exists pre.
  - apply andb_prop in Hf as [Ha Hf]. destruct pre as [|b pre]; simpl in H.
    + injection H as -> _. rewrite Hx in Ha. discriminate.
    + injection H as -> H. destruct (IH pre H Hf Hx) as [mid ->].
      now exists mid.
Qed.

(** ** The equality test and [distinct] *)

Lemma layers_eqb_refl (a : list layer) : layers_eqb a a = true.
Proof.
  induction a as [|x a IH]; simpl; trivial. rewrite IH, andb_true_r.
  destruct x; simpl; auto using Z.eqb_refl, String.eqb_refl.
Qed.

Lemma entry_eqb_refl (x : nat * call) : entry_eqb x x = true.
Proof.
  destruct x as [i c]. unfold entry_eqb. simpl. rewrite Nat.eqb_refl. simpl.
  destruct c as [a|b|p q|q|[d x [y|] ls]|a|a|a b]; simpl; unfold plot_eqb; simpl;
    rewrite ?String.eqb_refl, ?layers_eqb_refl; simpl; trivial;
    apply Bool.eqb_reflx.
Qed.

Lemma distinct_NoDup (cs : list (nat * call)) : distinct cs = true -> NoDup cs.
Proof.
  induction cs as [|x cs IH]; simpl; intros H; constructor;
    apply andb_prop in H as [Hx Hcs]; auto.
  intros Hin. apply negb_true_iff in Hx.
  assert (existsb (entry_eqb x) cs = true)
    by (apply existsb_exists; exists x; auto using entry_eqb_refl).
  congruence.
Qed.

(** ** The expected sequence *)

Lemma canonical_distinct : NoDup canonical.
Proof. apply distinct_NoDup. vm_compute. reflexivity. Qed.

Lemma canonical_steps :
  steps canonical
  = [authenticate_step; query_step; download_step; plot_step; plot_step]
    ++ List.concat (repeat [query_step; download_step; plot_step; plot_step] 4)
    ++ repeat split_step 7 ++ repeat upload_step 3.
Proof. vm_compute. reflexivity. Qed.

(** The steps of an initial segment are an initial segment of the steps. *)
Lemma steps_firstn (k : nat) (cs : list (nat * call)) :
  exists n, steps (firstn k cs) = firstn n (steps cs).
Proof.
  revert k. induction cs as [|[i c] rest IH]; intros k.
  - exists 0%nat. now destruct k.
  - destruct k as [|k]; [now exists 0%nat|].
    destruct (IH k) as [n Hn]. simpl.
    destruct (step_of c); [exists (S n); simpl; now rewrite Hn | now exists n].
Qed.

Lemma prefix_distinct (k : nat) : NoDup (firstn k canonical).
Proof.
  apply (NoDup_app_remove_r _ (skipn k canonical)).
  rewrite firstn_skipn. exact canonical_distinct.
Qed.

(** Whatever precedes a query holds the authentication, and whatever
    precedes an upload command holds both [write.table] calls. *)
Lemma canonical_order (pre rest : list (nat * call)) (x : nat * call) :
  canonical = pre ++ x :: rest ->
  (is_query (snd x) = true -> In (2%nat, BqAuth true) pre) /\
  (is_system (snd x) = true ->
   In (18%nat, WriteTable "data/train_data.csv") pre /\
   In (18%nat, WriteTable "data/eval_data.csv") pre).
Proof.
  intros H. split; intros Hx.
  - rewrite <- (firstn_skipn 4 canonical) in H.
    destruct (front_is_passed (fun y => is_query (snd y)) _ _ _ _ _ H eq_refl Hx)
      as [mid ->].
    apply in_or_app. left. simpl. tauto.
  - rewrite <- (firstn_skipn 31 canonical) in H.
    destruct (front_is_passed (fun y => is_system (snd y)) _ _ _ _ _ H eq_refl Hx)
      as [mid ->].
    split; apply in_or_app; left;
      change (firstn 31 canonical)
        with (firstn 29 canonical
              ++ [ (18%nat, WriteTable "data/train_data.csv");
                   (18%nat, WriteTable "data/eval_data.csv") ]);
      apply in_or_app; right; simpl; tauto.
Qed.

(** ** Runs *)

Lemma run_until_error (w : world) :
  (calls (fst (run w)), outcome (snd (run w))) = until_error w canonical.
Proof.
  pose proof (RunFacts.run_agrees w) as H. unfold agrees in H.
  destruct (run w) as [l r]. tauto.
Qed.

Lemma run_prefix (w : world) :
  exists k, calls (fst (run w)) = firstn k canonical.
Proof.
  destruct (until_error_prefix w canonical) as [k Hk]. exists k.
  now rewrite <- Hk, <- run_until_error.
Qed.

Lemma run_uploads (w : world) (x : nat * call) :
  In x (calls (fst (run w))) -> is_system (snd x) = true ->
  both_written (fst (run w)) = true.
Proof.
  pose proof (RunFacts.run_agrees w) as H. unfold agrees in H.
  destruct (run w) as [l r]. simpl. destruct H as (_ & H & _).
  intros Hin Hx.
  assert (Hup : uploading (calls l) = true)
    by (apply existsb_exists; eauto).
  now rewrite Hup in H.
Qed.

(** When no call of the expected sequence signals an error, the run
    completes and issues all of them. *)
Lemma quiet_world_completes (w : world) :
  forallb (fun x => match raised w (snd x) with None => true | Some _ => false end)
          canonical = true ->
  outcome (snd (run w)) = None /\ calls (fst (run w)) = canonical.
Proof.
  intros Hall. pose proof (run_until_error w) as H.
  assert (Hu : until_error w canonical = (canonical, None)).
  { revert Hall. generalize canonical. induction l as [|[i c] rest IH]; simpl.
    - reflexivity.
    - destruct (raised w c); [discriminate|]. intros Hall.
      now rewrite (IH Hall). }
  rewrite Hu in H. injection H as Hc Ho. now split.
Qed.


(** C7 (as amended).  The calls and the outcome of a run are those of one
    fixed sequence, cut after the first call that signals an error and whole
    when none does: no call is conditional, none occurs twice, and two
    executions in which the same calls fail issue the same calls.  By the
    kind of call, the steps of the sequence are: authenticate, query,
    download, two plots; four times a query, its download and two plots; the
    seven calls of the split; the three uploads.  The authentication
    precedes every query, and an upload command is only issued after both
    [write.table] calls, with both CSV files written. *)
Theorem fixed_order (w : world) :
  let l := fst (run w) in
  let r := snd (run w) in
  (calls l, outcome r) = until_error w canonical /\
  (exists k, calls l = firstn k canonical) /\
  NoDup (calls l) /\
  ((forall x, In x canonical -> raised w (snd x) = None) ->
   calls l = canonical /\ outcome r = None) /\
  (forall w',
     (forall x, In x canonical -> raised w' (snd x) = raised w (snd x)) ->
     calls (fst (run w')) = calls l /\
     outcome (snd (run w')) = outcome r) /\
  steps canonical
  = [authenticate_step; query_step; download_step; plot_step; plot_step]
    ++ List.concat (repeat [query_step; download_step; plot_step; plot_step] 4)
    ++ repeat split_step 7 ++ repeat upload_step 3 /\
  (exists n, steps (calls l) = firstn n (steps canonical)) /\
  (forall pre x post,
     calls l = pre ++ x :: post -> is_query (snd x) = true ->
     In (2%nat, BqAuth true) pre) /\
  (forall pre x post,
     calls l = pre ++ x :: post -> is_system (snd x) = true ->
     In (18%nat, WriteTable "data/train_data.csv") pre /\
     In (18%nat, WriteTable "data/eval_data.csv") pre /\
     both_written l = true).
Proof.
  intros l r. pose proof (run_until_error w) as H. fold l r in H.
  destruct (run_prefix w) as [k Hk]. fold l in Hk.
  split; [exact H|]. split; [now exists k|].
  split; [rewrite Hk; apply prefix_distinct|].
  split.
  { intros Hquiet. rewrite (until_error_quiet w canonical Hquiet) in H.
    injection H as Hc Ho. now split. }
  split.
  { intros w' Hsame. pose proof (run_until_error w') as H'.
    rewrite (until_error_same w w' canonical Hsame), <- H in H'.
    injection H' as Hc Ho. now split. }
  split; [exact canonical_steps|].
  split; [rewrite Hk; apply steps_firstn|].
  split.
  - intros pre x post Hsplit Hx. rewrite Hk in Hsplit.
    apply firstn_split in Hsplit.
    now apply (canonical_order _ _ _ Hsplit).
  - intros pre x post Hsplit Hx.
    assert (Hin : In x (calls l)) by (rewrite Hsplit; apply in_elt).
    rewrite Hk in Hsplit. apply firstn_split in Hsplit.
    destruct (proj2 (canonical_order _ _ _ Hsplit) Hx) as [Ht He].
    repeat split; trivial. now apply (run_uploads w x).
Qed.

(** C7 (as stated) fails on the order of the steps: in an execution in which
    nothing fails, the whole sequence runs, and by the kind of call its steps
    are not in the order authenticate, query, download, plot, split, upload:
    cell 12 sends a query after cell 10 has drawn a chart. *)
Lemma queries_follow_plots :
  calls (fst (run ideal)) = canonical /\
  outcome (snd (run ideal)) = None /\
  in_order (steps (calls (fst (run ideal)))) = false /\
  (exists pre mid post p q,
     calls (fst (run ideal))
     = pre ++ (10%nat, Ggplot p)
           :: mid ++ (12%nat, BqProjectQuery project q) :: post).
Proof.
  destruct (quiet_world_completes ideal eq_refl) as (Ho & Hc).
  split; [exact Hc|]. split; [exact Ho|]. rewrite Hc.
  split; [vm_compute; reflexivity|].
  exists (firstn 7 canonical), [], (skipn 9 canonical).
  do 2 eexists. vm_compute. reflexivity.
Qed.

(** C8 (as amended).  No cell catches, retries or rewrites an error.  The
    calls and the outcome of a run are those of the fixed sequence cut after
    the first call that signals an R error: when a library load, the
    authentication, a query, a download, a chart or [write.table] fails, that
    call is the last one of the run and the run ends with its error,
    unchanged; when none fails the whole sequence runs.  The first call that
    fails decides this, and no call occurs twice.  A shell command run through
    [system(command)] never signals an error: its exit status is the value of
    the call, which the notebook does not read. *)
Theorem errors_stop_the_run (w : world) :
  let l := fst (run w) in
  let r := snd (run w) in
  (calls l, outcome r) = until_error w canonical /\
  NoDup (calls l) /\
  (forall e, outcome r = Some e ->
     exists pre x,
       calls l = pre ++ [x] /\ raised w (snd x) = Some e /\
       forall y, In y pre -> raised w (snd y) = None) /\
  (outcome r = None ->
     calls l = canonical /\ forall y, In y canonical -> raised w (snd y) = None) /\
  (forall pre x post e,
     canonical = pre ++ x :: post ->
     (forall y, In y pre -> raised w (snd y) = None) ->
     raised w (snd x) = Some e ->
     calls l = pre ++ [x] /\ outcome r = Some e) /\
  (forall command i l0,
     exists status,
       system command w i l0 = (log_call i (System command false) l0, Ok status)).
Proof.
  intros l r. pose proof (run_until_error w) as H. fold l r in H.
  assert (Hc : calls l = fst (until_error w canonical)) by now rewrite <- H.
  assert (Ho : outcome r = snd (until_error w canonical)) by now rewrite <- H.
  split; [exact H|]. split.
  { destruct (run_prefix w) as [k Hk]. fold l in Hk. rewrite Hk.
    apply prefix_distinct. }
  split.
  { intros e He. rewrite Ho in He. rewrite Hc.
    now apply until_error_stops. }
  split.
  { intros He. rewrite Ho in He. rewrite Hc.
    now apply until_error_completes. }
  split.
  { intros pre x post e Hsplit Hpre Hx.
    rewrite Hc, Ho, Hsplit, (until_error_first w pre post x e Hpre Hx).
    now split. }
  intros command i l0. unfold system. eauto.
Qed.

(** C8 (as stated) fails on the upload step: when the bucket exists already,
    [gsutil mb] exits with status 1, yet the run ends without an error and
    the remaining commands are issued. *)
Lemma failed_upload_goes_unreported :
  (exists output,
     shell bucket_exists "gsutil mb gs://r-on-gcp/" = Exited 1 output) /\
  outcome (snd (run bucket_exists)) = None /\
  calls (fst (run bucket_exists)) = canonical /\
  In (19%nat, System "gsutil cp data/*_data.csv gs://r-on-gcp/data" false)
     (calls (fst (run bucket_exists))).
Proof.
  split; [eexists; reflexivity|].
  destruct (quiet_world_completes bucket_exists eq_refl) as (Ho & Hc).
  split; [exact Ho|]. split; [exact Hc|].
  rewrite Hc. vm_compute. tauto.
Qed.

(** ** The queries of a run *)

Lemma run_calls_expected (w : world) (x : nat * call) :
  In x (calls (fst (run w))) -> In x canonical.
Proof.
  destruct (run_prefix w) as [k ->]. intros H.
  rewrite <- (firstn_skipn k canonical). apply in_or_app. now left.
Qed.

Lemma run_queries (w : world) (i : nat) (p q : string) :
  In (i, BqProjectQuery p q) (calls (fst (run w))) ->
  (i = 5%nat -> q = query_10000) /\
  (i = 16%nat -> q = train_query \/ q = eval_query).
Proof.
  intros H. apply run_calls_expected in H.
  cbv [canonical distinct_values_calls List.app In] in H.
  repeat (destruct H as [H|H]; [try discriminate H|]); try contradiction;
    injection H as <- _ <-; split; intros Hi; try discriminate Hi; auto.
Qed.

Lemma run_completed (w : world) (e : env) :
  snd (run w) = Ok e ->
  calls (fst (run w)) = canonical /\
  lookup "sql_query" e = Some (Atom (RChr query_10000)) /\
  lookup "train_query" e = Some (Atom (RChr train_query)) /\
  lookup "eval_query" e = Some (Atom (RChr eval_query)).
Proof.
  pose proof (RunFacts.run_agrees w) as H. unfold agrees in H.
  pose proof (until_error_completes w canonical) as Hc.
  destruct (run w) as [l r]. cbn [fst snd]. intros ->.
  destruct H as (H & _ & Hs & Ht & He & _).
  rewrite <- H in Hc. cbn [fst snd outcome] in Hc.
  destruct (Hc eq_refl) as [Hcalls _]. auto.
Qed.

End OrderFacts.

(* ================================================================== *)
(** * Facts about the CSV files                                        *)
(* ================================================================== *)

Module CsvFacts.
Import R Csv.

Lemma mentions_append (c : ascii) (a b : string) :
  mentions c (a ++ b) = mentions c a || mentions c b.
Proof. induction a as [|k a IH]; simpl; trivial. now rewrite IH, orb_assoc. Qed.

Lemma mentions_concat (c : ascii) (sep : string) (fields : list string) :
  mentions c sep = false ->
  forallb (fun f => negb (mentions c f)) fields = true ->
  mentions c (String.concat sep fields) = false.
Proof.
  intros Hsep. induction fields as [|f fields IH]; simpl; trivial.
  intros H. apply andb_prop in H as [Hf Hrest]. apply negb_true_iff in Hf.
  destruct fields as [|g fields]; trivial.
  now rewrite !mentions_append, Hf, Hsep, (IH Hrest).
Qed.

Lemma forallb_of_map {A B : Type} (p : B -> bool) (g : A -> B) (l : list A) :
  forallb p (map g l) = forallb (fun a => p (g a)) l.
Proof. induction l as [|a l IH]; simpl; trivial. now rewrite IH. Qed.

(** A text without newline, followed by a newline, is the first line. *)
Lemma lines_first (l rest : string) :
  mentions newline l = false ->
  lines (l ++ String newline rest) = l :: lines rest.
Proof.
  induction l as [|c l IH]; simpl; intros H.
  - reflexivity.
  - apply orb_false_elim in H as [Hc Hl]. now rewrite Hc, (IH Hl).
Qed.

Section Records.

Variable format_double : float -> string.

(** Without row names the record number plays no role. *)
Lemma record_text_plain (sep : string) (i j : nat) (r : list value) :
  record_text format_double false sep i r
  = record_text format_double false sep j r.
Proof. reflexivity. Qed.

Lemma lines_records (sep : string) (number : nat) (rs : list (list value)) :
  mentions newline sep = false ->
  forallb (forallb (fun v => negb (mentions newline (field format_double v)))) rs
    = true ->
  lines (records format_double false sep number rs)
  = map (record_text format_double false sep 0) rs.
Proof.
  intros Hsep. revert number.
  induction rs as [|r rs IH]; simpl; intros number H; trivial.
  apply andb_prop in H as [Hr Hrs].
  change (eol ++ ?x) with (String newline x).
  rewrite lines_first, (IH _ Hrs); trivial.
  unfold record_text. simpl. apply mentions_concat; trivial.
  now rewrite forallb_of_map.
Qed.

(** Every line of a file written without header and row names is one record
    of the data frame, in order. *)
Lemma lines_write_table (d : data_frame) (sep : string) :
  mentions newline sep = false ->
  one_line_fields format_double d = true ->
  lines (write_table format_double d false false sep)
  = map (record_text format_double false sep 0) (rows d).
Proof. intros Hsep H. unfold write_table. simpl. now apply lines_records. Qed.

End Records.

(** ** The fields of a split query's rows *)

Lemma digit_not_newline (c : ascii) :
  BigQuery.is_digit c = true -> Ascii.eqb c newline = false.
Proof.
  destruct c as [[|] [|] [|] [|] [|] [|] [|] [|]]; vm_compute; congruence.
Qed.

Lemma digits_one_line (s : string) :
  BigQuery.all_digits s = true -> mentions newline s = false.
Proof.
  induction s as [|c s IH]; simpl; trivial.
  intros H. apply andb_prop in H as [Hc Hs].
  now rewrite (digit_not_newline c Hc), (IH Hs).
Qed.

Lemma integer_one_line (n : Z) :
  mentions newline (NilZero.string_of_int (Z.to_int n)) = false.
Proof.
  destruct (Z.to_int n) as [d|d]; simpl;
    apply digits_one_line, SplitFacts.all_digits_numeral.
Qed.

Lemma escape_one_line (s : string) :
  mentions newline (escape s) = mentions newline s.
Proof.
  induction s as [|c s IH]; simpl; trivial.
  destruct (Ascii.eqb_spec c double_quote) as [->|_]; simpl; now rewrite IH.
Qed.

Lemma quoted_one_line (s : string) :
  mentions newline (quoted s) = mentions newline s.
Proof.
  unfold quoted. simpl. rewrite mentions_append, escape_one_line. simpl.
  now rewrite orb_false_r.
Qed.

Lemma field_one_line (format_double : float -> string) (v : value) :
  (forall x, mentions newline (format_double x) = false) ->
  (forall s, v = Chr (Some s) -> mentions newline s = false) ->
  mentions newline (field format_double v) = false.
Proof.
  intros Hfmt Hchr.
  destruct v as [[[|]|]|[n|]|[x|]|[s|]]; unfold field; trivial.
  - apply integer_one_line.
  - rewrite quoted_one_line. now apply Hchr.
Qed.

Lemma births_one_line (format_double : float -> string) (bs : list BigQuery.birth) :
  (forall x, mentions newline (format_double x) = false) ->
  Forall (fun b => BigQuery.numeral_key (BigQuery.key b)) bs ->
  one_line_fields format_double (frame_of_births bs) = true.
Proof.
  intros Hfmt Hkeys. unfold one_line_fields, frame_of_births.
  cbn [rows]. rewrite forallb_of_map. apply forallb_forall. intros b Hb.
  rewrite Forall_forall in Hkeys. destruct (Hkeys b Hb) as (z & Hz & Hk).
  unfold birth_values. rewrite Hk. cbn [forallb].
  rewrite !field_one_line; trivial; intros s; try discriminate.
  intros [= <-]. apply integer_one_line.
Qed.

Section CsvOfSplit.

Variable FARM_FINGERPRINT : string -> Z.
Variable CAST_FLOAT64_AS_STRING : float -> string.
Variable ROUND2 : float -> float.
Variable w : Notebook.world.

Hypothesis fingerprint_int64 :
  forall s, BigQuery.in_int64 (FARM_FINGERPRINT s) = true.

(** R writes a number on one line. *)
Hypothesis format_one_line :
  forall x, mentions newline (Notebook.format_double w x) = false.

(** C9.  In a run that completes, in a world where BigQuery answers the two
    split queries with the rows the queries select from the base result, the
    files written are [data/train_data.csv] and [data/eval_data.csv]; the
    lines of each are the records of the corresponding data frame, in order,
    each the eight fields joined by commas, with no header line and no row
    name; so each file has as many lines as the data frame has rows. *)
Theorem csv_lines_are_records (e : Notebook.env) (table : list BigQuery.natality)
    (limit : nat) (rows train_data eval_data : list BigQuery.birth) :
  snd (Notebook.run w) = Notebook.Ok e ->
  BigQuery.base_query FARM_FINGERPRINT CAST_FLOAT64_AS_STRING ROUND2 table limit
    = Some rows ->
  BigQuery.run_train_query rows = Some train_data ->
  BigQuery.run_eval_query rows = Some eval_data ->
  Notebook.table_download w Trace.train_query = inr (frame_of_births train_data) ->
  Notebook.table_download w Trace.eval_query = inr (frame_of_births eval_data) ->
  let record b :=
    String.concat "," (map (field (Notebook.format_double w)) (birth_values b)) in
  exists train_csv eval_csv,
    Notebook.files (fst (Notebook.run w))
    = [ ("data/train_data.csv", train_csv); ("data/eval_data.csv", eval_csv) ] /\
    lines train_csv = map record train_data /\
    List.length (lines train_csv) = nrow (frame_of_births train_data) /\
    lines eval_csv = map record eval_data /\
    List.length (lines eval_csv) = nrow (frame_of_births eval_data).
Proof.
  intros Hrun Hbase Htrain Heval Hdt Hde record.
  pose proof (SplitFacts.base_query_keys _ _ _ fingerprint_int64 _ _ _ Hbase)
    as Hkeys.
  assert (Hsub : forall cond kept,
             BigQuery.select_where cond rows = Some kept ->
             Forall (fun b => BigQuery.numeral_key (BigQuery.key b)) kept).
  { intros cond kept H. apply SplitFacts.select_where_filter in H. subst kept.
    rewrite Forall_forall in *. intros b Hb. apply filter_In in Hb.
    apply Hkeys. tauto. }
  pose proof (births_one_line _ _ format_one_line (Hsub _ _ Htrain)) as Hlt.
  pose proof (births_one_line _ _ format_one_line (Hsub _ _ Heval)) as Hle.
  pose proof (RunFacts.run_agrees w) as H. unfold Trace.agrees in H.
  destruct (Notebook.run w) as [l r]. cbn [fst snd] in *. subst r.
  destruct H as (_ & _ & _ & _ & _ & dt & de & Hdt' & Hde' & _ & _ & Hfiles).
  rewrite Hdt in Hdt'. rewrite Hde in Hde'.
  injection Hdt' as <-. injection Hde' as <-.
  do 2 eexists. split; [exact Hfiles|].
  rewrite !(lines_write_table _ _ "," eq_refl) by assumption.
  unfold nrow, frame_of_births. simpl. rewrite !length_map, !map_map.
  repeat split; reflexivity.
Qed.

End CsvOfSplit.

Lemma csv_lines_are_records_witness :
  exists train_csv eval_csv,
    Notebook.files (fst (Notebook.run Sample.sample_world))
    = [ ("data/train_data.csv", train_csv); ("data/eval_data.csv", eval_csv) ] /\
    lines train_csv = [ "7.25,FALSE,24,1,39,NA,NA," ++ quoted "75" ] /\
    List.length (lines train_csv) = 1%nat /\
    lines eval_csv = [ "6.5,TRUE,31,1,39,NA,NA," ++ quoted "2376";
                       "6.5,FALSE,19,1,39,NA,NA," ++ quoted "2376" ] /\
    List.length (lines eval_csv) = 2%nat.
Proof.
  destruct (Notebook.run Sample.sample_world) as [l [e|c]] eqn:Hrun.
  - pose proof (csv_lines_are_records Sample.sample_fingerprint
                  Sample.sample_cast Sample.sample_round Sample.sample_world
                  SplitFacts.sample_fingerprint_int64) as H.
    rewrite Hrun in H.
    apply (H (fun x => ltac:(unfold Sample.sample_world, Sample.sample_cast;
                              simpl; destruct (PrimFloat.ltb x 7); reflexivity))
             e Sample.sample_table 3%nat Sample.sample_rows
             Sample.sample_train Sample.sample_eval);
      reflexivity.
  - exfalso. apply (f_equal snd) in Hrun. vm_compute in Hrun. discriminate.
Defined.

End CsvFacts.

(* ================================================================== *)
(** * Facts about the MLproject manifest                               *)
(* ================================================================== *)

Module ManifestFacts.
Import MLproject.
#[local] Open Scope list_scope.

Lemma command_fields :
  fields command
  = [ "job_dir"; "num_epochs"; "train_steps"; "eval_steps"; "train_files";
      "eval_files"; "batch_size"; "mlflow_tracking_uri" ].
Proof. vm_compute. reflexivity. Qed.

(** C6.  The manifest declares eight parameters, no name twice; each has a
    type, which is [string], [int] or [uri], and a default value; each
    declared name occurs exactly once among the placeholders of the command
    template, and every placeholder of the template is a declared name. *)
Theorem manifest_parameters :
  declared
  = [ "job_dir"; "num_epochs"; "train_steps"; "eval_steps"; "batch_size";
      "train_files"; "eval_files"; "mlflow_tracking_uri" ] /\
  NoDup declared /\
  Forall (fun p => exists ty d,
                     type (snd p) = Some ty /\
                     In ty ["string"; "int"; "uri"] /\
                     default (snd p) = Some d)
         parameters /\
  (forall n, In n declared ->
             count_occ string_dec (fields command) n = 1%nat) /\
  (forall f, In f (fields command) -> In f declared).
Proof.
  split; [reflexivity|]. split.
  { unfold declared, parameters. simpl.
    repeat (constructor; [simpl; intuition discriminate|]). constructor. }
  split.
  { unfold parameters.
    repeat (constructor; [do 2 eexists; simpl; repeat split; tauto|]).
    constructor. }
  rewrite command_fields. split.
  - intros n Hn. unfold declared, parameters in Hn. simpl in Hn.
    repeat (destruct Hn as [<-|Hn]; [vm_compute; reflexivity|]).
    contradiction.
  - intros f Hf. unfold declared, parameters. simpl in *. tauto.
Qed.

End ManifestFacts.

(* ================================================================== *)
(** * More on the base query and the split queries                     *)
(* ================================================================== *)

Module QueryFacts.
Import BigQuery.
#[local] Open Scope list_scope.

(** ** The [WHERE] clause, conjunct by conjunct *)

Lemma AND_true (a b : sql bool) :
  is_true (AND a b) = true -> is_true a = true /\ is_true b = true.
Proof. destruct a as [| |[|]], b as [| |[|]]; simpl; auto. Qed.

Lemma int_gt_true (x : option Z) (n : Z) :
  is_true (int_gt x n) = true -> exists v, x = Some v /\ n < v.
Proof.
  destruct x as [v|]; simpl; [|discriminate].
  destruct (Z.ltb_spec n v); [eauto | discriminate].
Qed.

Lemma float_gt0_true (x : option float) :
  is_true (float_gt0 x) = true ->
  exists v, x = Some v /\ PrimFloat.ltb PrimFloat.zero v = true.
Proof.
  destruct x as [v|]; [|discriminate]. unfold float_gt0. simpl.
  destruct (PrimFloat.ltb PrimFloat.zero v) eqn:E; [|discriminate].
  intros _. exists v. split; [reflexivity | exact E].
Qed.

Section Base.

Variable FARM_FINGERPRINT : string -> Z.
Variable CAST_FLOAT64_AS_STRING : float -> string.
Variable ROUND2 : float -> float.

Let key_text := key_text CAST_FLOAT64_AS_STRING.
Let key_column := key_column FARM_FINGERPRINT CAST_FLOAT64_AS_STRING.
Let select_list := select_list FARM_FINGERPRINT CAST_FLOAT64_AS_STRING ROUND2.
Let select_all := select_all FARM_FINGERPRINT CAST_FLOAT64_AS_STRING ROUND2.
Let base_query := base_query FARM_FINGERPRINT CAST_FLOAT64_AS_STRING ROUND2.

(** ** Rows of the result and rows of the table *)

Lemma select_all_rows (src : list natality) (rows : list birth) :
  select_all src = Some rows ->
  List.length rows = List.length src /\
  forall b, In b rows -> exists r, In r src /\ select_list r = Some b.
Proof.
  revert rows. induction src as [|r src IH]; simpl; intros rows H.
  - injection H as <-. split; [reflexivity | intros b []].
  - fold select_list in H. destruct (select_list r) as [b0|] eqn:Hb; [|discriminate].
    fold select_all in H, IH.
    destruct (select_all src) as [bs|]; [|discriminate].
    injection H as <-. destruct (IH bs eq_refl) as [Hlen Hin].
    split; [simpl; now rewrite Hlen|].
    intros b [<-|Hb']; [eauto|].
    destruct (Hin b Hb') as (r' & Hr' & Hs). eauto.
Qed.

(** X1.  Every row that the base query returns comes from a table row with
    [year > 2000] and [month > 0]; its [mother_age], [plurality] and
    [gestation_weeks] are not [NULL] and positive; its weight is the rounding
    of a positive weight, and its key is not [NULL].  ([is_male],
    [cigarette_use] and [alcohol_use] are copied as they are, [NULL]
    included.) *)
Theorem returned_rows_are_filled (table : list natality) (limit : nat)
    (rows : list birth) (b : birth) :
  base_query table limit = Some rows -> In b rows ->
  exists r,
    In r table /\
    (exists y, year r = Some y /\ 2000 < y) /\
    (exists m, month r = Some m /\ 0 < m) /\
    (exists w, weight_pounds r = Some w /\
               PrimFloat.ltb PrimFloat.zero w = true /\
               b_weight_pounds b = Some (ROUND2 w)) /\
    (exists a, b_mother_age b = Some a /\ 0 < a) /\
    (exists p, b_plurality b = Some p /\ 0 < p) /\
    (exists g, b_gestation_weeks b = Some g /\ 0 < g) /\
    (exists k, key b = Some k) /\
    b_is_male b = is_male r /\
    b_cigarette_use b = cigarette_use r /\
    b_alcohol_use b = alcohol_use r.
Proof.
  intros Hq Hb. unfold base_query, BigQuery.base_query in Hq. fold select_all in Hq.
  destruct (select_all_rows _ _ Hq) as [_ Hin].
  destruct (Hin b Hb) as (r & Hr & Hs).
  apply SplitFacts.in_firstn in Hr. apply filter_In in Hr as [Hr Hw].
  exists r. split; trivial.
  unfold where_clause in Hw.
  repeat (apply AND_true in Hw as [Hw ?]).
  repeat match goal with
         | H : is_true (int_gt _ _) = true |- _ =>
             apply int_gt_true in H as (? & ? & ?)
         | H : is_true (float_gt0 _) = true |- _ =>
             apply float_gt0_true in H as (? & ? & ?)
         end.
  unfold select_list, BigQuery.select_list in Hs.
  destruct (BigQuery.key_column _ _ r) as [| |k] eqn:Hk; try discriminate.
  - exfalso. unfold BigQuery.key_column, BigQuery.key_text in Hk.
    repeat match goal with H : _ r = Some _ |- _ => rewrite H in Hk end.
    simpl in Hk. unfold ABS in Hk. destruct (_ =? _) in Hk; discriminate.
  - injection Hs as <-. simpl.
    repeat match goal with H : _ r = Some _ |- _ => rewrite H end.
    simpl. repeat split; eauto.
Qed.

Hypothesis fingerprint_int64 : forall s, in_int64 (FARM_FINGERPRINT s) = true.

(** X3.  The base query returns at most [limit] rows, and no more than the
    table holds; the rows of [train_data] and of [eval_data] add up to the
    rows of the base result, so together they never exceed the limit. *)
Theorem split_counts_within_limit (table : list natality) (limit : nat)
    (rows train_data eval_data : list birth) :
  base_query table limit = Some rows ->
  run_train_query rows = Some train_data ->
  run_eval_query rows = Some eval_data ->
  (List.length train_data + List.length eval_data = List.length rows)%nat /\
  (List.length rows <= limit)%nat /\
  (List.length rows <= List.length table)%nat.
Proof.
  intros Hq Ht He.
  pose proof (SplitFacts.base_query_keys _ _ _ fingerprint_int64 _ _ _ Hq) as Hkeys.
  rewrite Forall_forall in Hkeys.
  apply SplitFacts.select_where_filter in Ht, He. subst.
  split.
  - rewrite <- length_app. symmetry. apply Permutation_length.
    apply SplitFacts.filter_complement_perm. intros r Hr.
    destruct (SplitFacts.numeral_key_exclusive _ (Hkeys r Hr)) as (c & -> & ->).
    now destruct c.
  - unfold base_query, BigQuery.base_query in Hq. fold select_all in Hq.
    destruct (select_all_rows _ _ Hq) as [-> _].
    split; [apply firstn_le_length|].
    rewrite length_firstn.
    etransitivity; [apply Nat.le_min_r | apply filter_length_le].
Qed.

End Base.

(** ** Keys that are not numerals of a non-negative INT64 *)

Lemma select_where_skip (cond : birth -> sql bool) (pre post : list birth)
    (r : birth) :
  cond r = Null ->
  select_where cond (pre ++ r :: post) = select_where cond (pre ++ post).
Proof.
  intros Hr. induction pre as [|x pre IH]; simpl.
  - rewrite Hr. now destruct (select_where cond post).
  - now rewrite IH.
Qed.

Lemma select_where_raise (cond : birth -> sql bool) (rows : list birth)
    (r : birth) :
  In r rows -> cond r = Raise -> select_where cond rows = None.
Proof.
  intros Hin Hr. induction rows as [|x rows IH]; simpl; [contradiction|].
  destruct Hin as [->|Hin].
  - now rewrite Hr.
  - rewrite (IH Hin). now destruct (cond x).
Qed.

(** X4.  A row whose key is [NULL] is left out of both [train_data] and
    [eval_data] without any error: each split query answers as if the row
    were not there. *)
Theorem null_key_is_dropped (pre post : list birth) (r : birth) :
  key r = None ->
  run_train_query (pre ++ r :: post) = run_train_query (pre ++ post) /\
  run_eval_query (pre ++ r :: post) = run_eval_query (pre ++ post).
Proof.
  intros Hk. unfold run_train_query, run_eval_query.
  split; apply select_where_skip; now rewrite Hk.
Qed.

(** The forms that the cast reads, and some that it refuses. *)
Lemma cast_forms :
  CAST_STRING_AS_INT64 "75" = Val 75 /\
  CAST_STRING_AS_INT64 "-176" = Val (-176) /\
  CAST_STRING_AS_INT64 "+5" = Val 5 /\
  CAST_STRING_AS_INT64 " 12" = Val 12 /\
  CAST_STRING_AS_INT64 "12 " = Val 12 /\
  CAST_STRING_AS_INT64 "010" = Val 10 /\
  CAST_STRING_AS_INT64 "0x1F" = Val 31 /\
  CAST_STRING_AS_INT64 "0X1f" = Val 31 /\
  CAST_STRING_AS_INT64 "-0x1f" = Val (-31) /\
  CAST_STRING_AS_INT64 "-9223372036854775808" = Val INT64_MIN /\
  CAST_STRING_AS_INT64 "9223372036854775808" = Raise /\
  CAST_STRING_AS_INT64 "" = Raise /\
  CAST_STRING_AS_INT64 "-" = Raise /\
  CAST_STRING_AS_INT64 "0x" = Raise /\
  CAST_STRING_AS_INT64 "1 2" = Raise /\
  CAST_STRING_AS_INT64 "- 5" = Raise /\
  CAST_STRING_AS_INT64 "7.0" = Raise /\
  CAST_STRING_AS_INT64 "7e3" = Raise.
Proof. repeat split; vm_compute; reflexivity. Qed.

(** X5.  One row whose key does not cast to INT64 makes both split queries
    fail as a whole. *)
Theorem bad_key_fails_both (rows : list birth) (r : birth) (s : string) :
  In r rows -> key r = Some s -> CAST_STRING_AS_INT64 s = Raise ->
  run_train_query rows = None /\ run_eval_query rows = None.
Proof.
  intros Hin Hk Hc. unfold run_train_query, run_eval_query.
  split; apply (select_where_raise _ _ r Hin);
    unfold train_condition, eval_condition, partition_value;
    rewrite Hk; simpl; now rewrite Hc.
Qed.

Lemma cast_negative (z : Z) :
  INT64_MIN <= z < 0 ->
  CAST_STRING_AS_INT64 (CAST_INT64_AS_STRING z) = Val z.
Proof.
  intros [Hmin Hneg]. destruct z as [|p|p]; try lia.
  unfold CAST_INT64_AS_STRING. simpl Z.to_int. simpl NilZero.string_of_int.
  unfold CAST_STRING_AS_INT64.
  assert (Htrim : trim (String "-" (NilZero.string_of_uint (Pos.to_uint p)))
                  = String "-" (NilZero.string_of_uint (Pos.to_uint p))).
  { unfold trim. simpl skip_spaces. simpl drop_trailing_spaces.
    rewrite (SplitFacts.drop_trailing_digits _ (SplitFacts.all_digits_numeral _)).
    now destruct (NilZero.string_of_uint (Pos.to_uint p)). }
  rewrite Htrim.
  change (Ascii.eqb "-" "-") with true. cbv iota.
  unfold magnitude.
  rewrite (SplitFacts.digits_not_hex _ (SplitFacts.all_digits_numeral _)).
  rewrite NilZero.usu by apply DecimalPos.Unsigned.to_uint_nonnil.
  simpl option_map. unfold Z.of_uint.
  rewrite DecimalPos.Unsigned.of_to. simpl.
  replace (in_int64 (Z.neg p)) with true; trivial.
  symmetry. unfold in_int64, INT64_MIN, INT64_MAX in *.
  apply andb_true_intro; split; apply Z.leb_le; lia.
Qed.

(** X6.  The split depends on [ABS]: on the numeral of a negative INT64 the
    cast gives the number back, [MOD] keeps its sign, so the partition value
    lies in -99..0, the train condition is [TRUE] and the eval condition is
    [FALSE], whatever the key. *)
Theorem negative_keys_all_train (z : Z) :
  INT64_MIN <= z < 0 ->
  CAST_STRING_AS_INT64 (CAST_INT64_AS_STRING z) = Val z /\
  partition_value (Some (CAST_INT64_AS_STRING z)) = Val (Z.rem z 100) /\
  -99 <= Z.rem z 100 <= 0 /\
  train_condition (Some (CAST_INT64_AS_STRING z)) = Val true /\
  eval_condition (Some (CAST_INT64_AS_STRING z)) = Val false.
Proof.
  intros Hz. pose proof (cast_negative z Hz) as Hc.
  assert (Hp : partition_value (Some (CAST_INT64_AS_STRING z)) = Val (Z.rem z 100)).
  { unfold partition_value. simpl col. unfold bind at 1. now rewrite Hc. }
  assert (Hr : -99 <= Z.rem z 100 <= 0).
  { pose proof (Z.rem_nonpos z 100) as H1.
    pose proof (Z.rem_bound_abs z 100) as H2. lia. }
  unfold train_condition, eval_condition. rewrite Hp. simpl.
  repeat split; trivial; try lia; f_equal.
  - apply Z.leb_le. lia.
  - apply Z.ltb_ge. lia.
Qed.

(** ** The statements above on sample data *)

Lemma returned_rows_are_filled_witness :
  let b := nth 1 Sample.sample_rows Sample.blank in
  exists r,
    In r Sample.sample_table /\
    (exists y, year r = Some y /\ 2000 < y) /\
    (exists m, month r = Some m /\ 0 < m) /\
    (exists w, weight_pounds r = Some w /\
               PrimFloat.ltb PrimFloat.zero w = true /\
               b_weight_pounds b = Some (Sample.sample_round w)) /\
    (exists a, b_mother_age b = Some a /\ 0 < a) /\
    (exists p, b_plurality b = Some p /\ 0 < p) /\
    (exists g, b_gestation_weeks b = Some g /\ 0 < g) /\
    (exists k, key b = Some k) /\
    b_is_male b = is_male r /\
    b_cigarette_use b = cigarette_use r /\
    b_alcohol_use b = alcohol_use r.
Proof.
  intros b.
  apply (returned_rows_are_filled Sample.sample_fingerprint Sample.sample_cast
           Sample.sample_round Sample.sample_table 3 Sample.sample_rows b eq_refl).
  vm_compute. tauto.
Defined.

Lemma split_counts_within_limit_witness :
  (List.length Sample.sample_train + List.length Sample.sample_eval
   = List.length Sample.sample_rows)%nat /\
  (List.length Sample.sample_rows <= 3)%nat /\
  (List.length Sample.sample_rows <= List.length Sample.sample_table)%nat.
Proof.
  apply (split_counts_within_limit Sample.sample_fingerprint Sample.sample_cast
           Sample.sample_round SplitFacts.sample_fingerprint_int64
           Sample.sample_table 3); reflexivity.
Defined.

Lemma null_key_is_dropped_witness :
  run_train_query (Sample.sample_rows ++ Sample.blank :: [])
  = run_train_query (Sample.sample_rows ++ []) /\
  run_eval_query (Sample.sample_rows ++ Sample.blank :: [])
  = run_eval_query (Sample.sample_rows ++ []).
Proof. apply (null_key_is_dropped Sample.sample_rows [] Sample.blank). reflexivity. Defined.

Lemma bad_key_fails_both_witness :
  let r := {| b_weight_pounds := None; b_is_male := None; b_mother_age := None;
              b_plurality := None; b_gestation_weeks := None;
              b_cigarette_use := None; b_alcohol_use := None;
              key := Some "7e3" |} in
  run_train_query (Sample.sample_rows ++ [r]) = None /\
  run_eval_query (Sample.sample_rows ++ [r]) = None.
Proof.
  intros r. apply (bad_key_fails_both (Sample.sample_rows ++ [r]) r "7e3").
  - apply in_or_app. right. now left.
  - reflexivity.
  - reflexivity.
Defined.

Lemma negative_keys_all_train_witness :
  train_condition (Some "-176") = Val true /\
  eval_condition (Some "-176") = Val false.
Proof.
  destruct (negative_keys_all_train (-176)) as (_ & _ & _ & Ht & He).
  - unfold INT64_MIN. lia.
  - split; assumption.
Defined.

End QueryFacts.

(* ================================================================== *)
(** * Facts about the aggregation query                                *)
(* ================================================================== *)

Module AggregateFacts.
Import BigQuery Aggregate.
#[local] Open Scope list_scope.

Lemma datum_eqb_eq (a b : datum) : datum_eqb a b = true <-> a = b.
Proof.
  destruct a as [[x|]|[x|]], b as [[y|]|[y|]]; simpl;
    try (split; [discriminate | intros [=]]); try tauto.
  - rewrite Bool.eqb_true_iff. split; [now intros -> | now intros [= ->]].
  - rewrite Z.eqb_eq. split; [now intros -> | now intros [= ->]].
Qed.

Lemma datum_eqb_refl (a : datum) : datum_eqb a a = true.
Proof. now apply datum_eqb_eq. Qed.

Section Groups.

Variable c : natality -> datum.

Lemma distinct_values_in (rows : list natality) (k : datum) :
  In k (distinct_values c rows) <-> exists r, In r rows /\ c r = k.
Proof.
  induction rows as [|r rows IH]; simpl.
  - split; [intros [] | intros (r & [] & _)].
  - rewrite filter_In, IH. split.
    + intros [<-|[(r' & Hr' & <-) _]]; eauto.
    + intros (r' & [<-|Hr'] & <-); auto.
      destruct (datum_eqb (c r) (c r')) eqn:E.
      * left. now apply datum_eqb_eq.
      * right. split; eauto.
Qed.

Lemma distinct_values_NoDup (rows : list natality) :
  NoDup (distinct_values c rows).
Proof.
  induction rows as [|r rows IH]; simpl; constructor.
  - rewrite filter_In. intros [_ H]. now rewrite datum_eqb_refl in H.
  - now apply NoDup_filter.
Qed.

(** In a list without repetition that holds [x], exactly one element
    equals [x]. *)
Lemma one_hit (ks : list datum) (x : datum) :
  NoDup ks -> In x ks ->
  List.length (filter (fun k => datum_eqb x k) ks) = 1%nat.
Proof.
  induction 1 as [|k ks Hk Hnd IH]; simpl; [contradiction|].
  intros [->|Hin].
  - rewrite datum_eqb_refl. simpl. f_equal.
    apply length_zero_iff_nil.
    destruct (filter (fun k => datum_eqb x k) ks) as [|y l] eqn:E; trivial.
    assert (Hy : In y (filter (fun k => datum_eqb x k) ks))
      by (rewrite E; now left).
    apply filter_In in Hy as [Hy He]. apply datum_eqb_eq in He. now subst.
  - destruct (datum_eqb x k) eqn:E; auto.
    apply datum_eqb_eq in E. now subst.
Qed.

Lemma sizes_cons (ks : list datum) (r : natality) (rows : list natality) :
  sizes c ks (r :: rows)
  = (List.length (filter (fun k => datum_eqb (c r) k) ks) + sizes c ks rows)%nat.
Proof.
  induction ks as [|k ks IH]; [reflexivity|].
  unfold sizes in *. cbn [fold_right filter]. rewrite IH.
  unfold members. cbn [filter].
  destruct (datum_eqb (c r) k); simpl; lia.
Qed.

(** The sizes of the groups of the values [ks] add up to the number of rows,
    when [ks] holds every value of the rows once. *)
Lemma sizes_add_up (ks : list datum) (rows : list natality) :
  NoDup ks -> (forall r, In r rows -> In (c r) ks) ->
  sizes c ks rows = List.length rows.
Proof.
  intros Hnd. induction rows as [|r rows IH]; intros Hall.
  - clear Hall Hnd. induction ks as [|k ks IHk]; simpl; trivial.
  - rewrite sizes_cons, IH by (intros; apply Hall; now right).
    rewrite (one_hit ks (c r) Hnd (Hall r (or_introl eq_refl))). reflexivity.
Qed.

End Groups.

Section Answer.

Variable AVG : list (option float) -> option float.

Lemma total_group_by (c : natality -> datum) (table : list natality) :
  total (group_by AVG c table) = Z.of_nat (List.length (kept table)).
Proof.
  unfold group_by.
  rewrite <- (sizes_add_up c (distinct_values c (kept table)) (kept table)).
  - unfold total, sizes.
    induction (distinct_values c (kept table)) as [|k ks IH]; simpl; trivial.
    rewrite IH. lia.
  - apply distinct_values_NoDup.
  - intros r Hr. apply distinct_values_in. eauto.
Qed.

(** X7.  The answer to the query of [get_distinct_values(column_name)] has
    one row for each value that the column takes among the births after
    2000, [NULL] being a value like another; no value comes twice; every
    [num_babies] is at least 1, and the [num_babies] add up to the number of
    rows of the table with [year > 2000].  The other conditions of the base
    query play no role here. *)
Theorem distinct_values_counts (column_name : string) (table : list natality)
    (answer : list group) :
  run_distinct_values_query AVG column_name table = Some answer ->
  exists c,
    column column_name = Some c /\
    NoDup (map value answer) /\
    (forall k, In k (map value answer) <->
               exists r, In r table /\ is_true (int_gt (year r) 2000) = true /\
                         c r = k) /\
    (forall g, In g answer ->
       1 <= num_babies g /\
       num_babies g
       = Z.of_nat (List.length
                     (filter (fun r => is_true (int_gt (year r) 2000)
                                       && datum_eqb (c r) (value g)) table))) /\
    total answer
    = Z.of_nat (List.length
                  (filter (fun r => is_true (int_gt (year r) 2000)) table)).
Proof.
  unfold run_distinct_values_query.
  destruct (column column_name) as [c|]; [|discriminate].
  intros [= <-]. exists c. split; trivial.
  assert (Hvalues : map value (group_by AVG c table)
                    = distinct_values c (kept table))
    by (unfold group_by; rewrite map_map; apply map_id).
  split; [rewrite Hvalues; apply distinct_values_NoDup|].
  split.
  { intros k. rewrite Hvalues, distinct_values_in. unfold kept.
    split; intros (r & Hr & Hk).
    - apply filter_In in Hr. exists r. tauto.
    - exists r. rewrite filter_In. tauto. }
  split; [|apply total_group_by].
  intros g Hg. unfold group_by in Hg. apply in_map_iff in Hg as (k & <- & Hk).
  simpl. unfold members, kept.
  assert (Hsame : filter (fun r => datum_eqb (c r) k)
                    (filter (fun r => is_true (int_gt (year r) 2000)) table)
                  = filter (fun r => is_true (int_gt (year r) 2000)
                                     && datum_eqb (c r) k) table).
  { clear. induction table as [|r t IH]; simpl; trivial.
    destruct (is_true (int_gt (year r) 2000)); simpl; rewrite <- IH; trivial. }
  rewrite <- Hsame. split; trivial.
  apply distinct_values_in in Hk as (r & Hr & Hc).
  assert (Hm : In r (filter (fun r => datum_eqb (c r) k) (kept table)))
    by (apply filter_In; split; trivial; now apply datum_eqb_eq).
  unfold kept in Hm.
  destruct (filter (fun r => datum_eqb (c r) k)
              (filter (fun r => is_true (int_gt (year r) 2000)) table));
    [contradiction | simpl; lia].
Qed.

End Answer.

Lemma distinct_values_counts_witness :
  exists answer,
    run_distinct_values_query sample_average "is_male" Sample.sample_table
    = Some answer /\
    map value answer = [Flag (Some true); Flag (Some false)] /\
    map num_babies answer = [1; 2] /\
    total answer
    = Z.of_nat (List.length
                  (filter (fun r => is_true (int_gt (year r) 2000))
                          Sample.sample_table)).
Proof.
  eexists. split; [reflexivity|]. split; [reflexivity|].
  split; [reflexivity|].
  destruct (distinct_values_counts sample_average "is_male"
              Sample.sample_table _ eq_refl) as (c & _ & _ & _ & _ & Htotal).
  exact Htotal.
Defined.

End AggregateFacts.

(* ================================================================== *)
(** * More on the cells and on the calls of a run                      *)
(* ================================================================== *)

Module CellFacts.
Import R Notebook Trace.
#[local] Open Scope list_scope.

(** ** Each download follows its query *)

Ltac drop_last :=
  lazymatch goal with
  | |- exists p, ?l = _ => exists (removelast l); reflexivity
  end.

Ltac peel :=
  lazymatch goal with
  | |- _ = ?pre ++ _ :: _ -> _ =>
      (destruct pre as [|? pre]; cbn [List.app]; intros Hsplit);
      [ first [discriminate Hsplit | injection Hsplit as <- <- _; drop_last]
      | first [discriminate Hsplit | injection Hsplit as <- Hsplit; revert Hsplit] ]
  end.

Lemma canonical_downloads (pre rest : list (nat * call)) (i : nat) (q : string) :
  canonical = pre ++ (i, BqTableDownload q) :: rest ->
  exists pre', pre = pre' ++ [(i, BqProjectQuery project q)].
Proof.
  unfold canonical, distinct_values_calls. cbn [List.app].
  do 35 (try peel).
Qed.

Lemma until_error_inner (w : world) (cs pre post : list (nat * call))
    (x : nat * call) :
  fst (until_error w cs) = pre ++ x :: post -> post <> [] ->
  raised w (snd x) = None.
Proof.
  intros H Hpost.
  destruct (snd (until_error w cs)) as [e|] eqn:Ho.
  - destruct (OrderFacts.until_error_stops w cs e Ho) as (pre0 & x0 & H0 & _ & Hall).
    destruct (exists_last Hpost) as (post' & y & ->).
    rewrite H0 in H.
    change (pre ++ x :: post' ++ [y]) with (pre ++ (x :: post') ++ [y]) in H.
    rewrite app_assoc in H. apply app_inj_tail in H as [-> _].
    apply Hall. apply in_or_app. right. now left.
  - destruct (OrderFacts.until_error_completes w cs Ho) as [Hc Hall].
    apply Hall. rewrite <- Hc, H. apply in_elt.
Qed.

(** X8.  In every run, a table is only downloaded right after the query that
    fills it was sent, from the same cell, and accepted: the call before a
    [bq_table_download] is the [bq_project_query] of the same query text, and
    it signalled no error. *)
Theorem downloads_follow_queries (w : world) (pre post : list (nat * call))
    (i : nat) (q : string) :
  calls (fst (run w)) = pre ++ (i, BqTableDownload q) :: post ->
  (exists pre', pre = pre' ++ [(i, BqProjectQuery project q)]) /\
  raised w (BqProjectQuery project q) = None.
Proof.
  intros H.
  assert (Hpre : exists pre', pre = pre' ++ [(i, BqProjectQuery project q)]).
  { destruct (OrderFacts.run_prefix w) as [k Hk]. rewrite Hk in H.
    apply OrderFacts.firstn_split in H. now apply canonical_downloads in H. }
  split; trivial. destruct Hpre as [pre' ->].
  pose proof (OrderFacts.run_until_error w) as Hrun.
  apply (f_equal fst) in Hrun. cbn [fst] in Hrun. rewrite H in Hrun.
  rewrite <- app_assoc in Hrun. cbn [List.app] in Hrun.
  symmetry in Hrun.
  apply (until_error_inner w _ _ _ _ Hrun). discriminate.
Qed.

Lemma downloads_follow_queries_witness :
  (exists pre',
     firstn 5 canonical = pre' ++ [(5%nat, BqProjectQuery project query_10000)]) /\
  raised ideal (BqProjectQuery project query_10000) = None.
Proof.
  apply (downloads_follow_queries ideal (firstn 5 canonical) (skipn 6 canonical)).
  vm_compute. reflexivity.
Defined.

(** ** Cell 16 on its own *)

(** Unfold a cell and the monad; leave [++], [sprintf] and the query texts
    alone. *)
Ltac evaluate_cell :=
  cbv beta iota zeta delta
    [cell_5 cell_16 distinct_values_cell get_distinct_values
     bind ret stop external signalled show need_atom need_chr need_frame
     need_function bq_project_query bq_table_download ggplot
     r_sprintf assign lookup log_call log_console log_file
     String.eqb Ascii.eqb Bool.eqb andb negb
     calls console files fst snd outcome
     until_error raised Report.split_calls train_query eval_query].

Ltac cell_step Hp Hs Hf :=
  lazymatch goal with
  | |- ?g =>
      let s := RunFacts.scrutinee g in
      first [ rewrite Hs | rewrite Hp | rewrite Hf | destruct s ];
      evaluate_cell
  end.

Lemma cell_16_cases (e : env) (w : world) (i : nat) (l : log) (p s : string) :
  lookup "PROJECT_ID" e = Some (Atom (RChr p)) ->
  lookup "sql_query" e = Some (Atom (RChr s)) ->
  sprintf s [RNum 10000] = Some query_10000 ->
  match cell_16 e w i l with
  | (l', r) =>
      (calls l', outcome r)
      = (let (t, o) := until_error w (Report.split_calls i p) in (calls l ++ t, o)) /\
      console l' = console l /\ files l' = files l /\
      match r with
      | Stop _ => True
      | Ok e' =>
          lookup "sql_query" e' = Some (Atom (RChr query_10000)) /\
          lookup "train_query" e' = Some (Atom (RChr train_query)) /\
          lookup "eval_query" e' = Some (Atom (RChr eval_query)) /\
          exists train_data eval_data,
            table_download w train_query = inr train_data /\
            table_download w eval_query = inr eval_data /\
            lookup "train_data" e' = Some (Frame train_data) /\
            lookup "eval_data" e' = Some (Frame eval_data)
      end
  end.
Proof.
  intros Hp Hs Hf.
  cbv beta iota delta [lookup String.eqb Ascii.eqb Bool.eqb] in Hp, Hs.
  evaluate_cell.
  repeat cell_step Hp Hs Hf.
  all: rewrite <- ?app_assoc; repeat split; try reflexivity.
  do 2 eexists. repeat split; reflexivity.
Qed.

(** X9.  Cell 16 stands on its own: whether [sql_query] still holds the
    template or already the query that cell 5 made of it, the cell sends the
    same two split queries, each followed by its download, stops at the first
    of these calls that fails, prints nothing and writes no file; when it
    completes, [sql_query], [train_query] and [eval_query] hold the expected
    texts and [train_data] and [eval_data] the two downloaded tables. *)
Theorem cell_16_is_self_contained (e : env) (w : world) (i : nat) (l : log)
    (p s : string) :
  lookup "PROJECT_ID" e = Some (Atom (RChr p)) ->
  lookup "sql_query" e = Some (Atom (RChr s)) ->
  s = sql_query_template \/ s = query_10000 ->
  let l' := fst (cell_16 e w i l) in
  let r := snd (cell_16 e w i l) in
  calls l' = calls l ++ fst (until_error w (Report.split_calls i p)) /\
  outcome r = snd (until_error w (Report.split_calls i p)) /\
  console l' = console l /\ files l' = files l /\
  forall e', r = Ok e' ->
    lookup "sql_query" e' = Some (Atom (RChr query_10000)) /\
    lookup "train_query" e' = Some (Atom (RChr train_query)) /\
    lookup "eval_query" e' = Some (Atom (RChr eval_query)) /\
    exists train_data eval_data,
      table_download w train_query = inr train_data /\
      table_download w eval_query = inr eval_data /\
      lookup "train_data" e' = Some (Frame train_data) /\
      lookup "eval_data" e' = Some (Frame eval_data).
Proof.
  intros Hp Hs Hcase l' r.
  assert (Hf : sprintf s [RNum 10000] = Some query_10000)
    by (destruct Hcase as [-> | ->];
        [exact RunFacts.sprintf_template | exact RunFacts.sprintf_query]).
  pose proof (cell_16_cases e w i l p s Hp Hs Hf) as H.
  subst l' r. destruct (cell_16 e w i l) as [l' r]. cbn [fst snd].
  destruct H as (Hc & Hcons & Hfiles & Hr).
  destruct (until_error w (Report.split_calls i p)) as [t o].
  injection Hc as Hcalls Hout. cbn [fst snd].
  split; [exact Hcalls|]. split; [exact Hout|].
  split; [exact Hcons|]. split; [exact Hfiles|].
  intros e' ->. exact Hr.
Qed.

Lemma cell_16_is_self_contained_witness :
  let e := assign "sql_query" (Atom (RChr sql_query_template))
             (assign "PROJECT_ID" (Atom (RChr project)) []) in
  calls (fst (cell_16 e ideal 16%nat empty_log)) = Report.split_calls 16%nat project /\
  outcome (snd (cell_16 e ideal 16%nat empty_log)) = None.
Proof.
  intros e.
  destruct (cell_16_is_self_contained e ideal 16%nat empty_log project
              sql_query_template eq_refl eq_refl (or_introl eq_refl))
    as (Hc & Ho & _).
  split; [exact Hc | exact Ho].
Defined.

(** X10.  Run before the cells that define their variables, cell 5 and
    cell 16 stop with R's "object not found" error for [sql_query], and, when
    only [PROJECT_ID] is missing, for [PROJECT_ID]; in both cases nothing has
    been sent, printed or written: the log is the one they started from. *)
Theorem cells_need_their_variables (e : env) (w : world) (i : nat) (l : log) :
  (lookup "sql_query" e = None ->
   cell_5 e w i l = (l, Stop (not_found "sql_query")) /\
   cell_16 e w i l = (l, Stop (not_found "sql_query"))) /\
  (forall s q,
     lookup "sql_query" e = Some (Atom (RChr s)) ->
     sprintf s [RNum 10000] = Some q ->
     lookup "PROJECT_ID" e = None ->
     cell_5 e w i l = (l, Stop (not_found "PROJECT_ID")) /\
     cell_16 e w i l = (l, Stop (not_found "PROJECT_ID"))).
Proof.
  split.
  - intros Hs. cbv beta iota delta [lookup String.eqb Ascii.eqb Bool.eqb] in Hs.
    split; evaluate_cell; rewrite Hs; reflexivity.
  - intros s q Hs Hf Hp.
    cbv beta iota delta [lookup String.eqb Ascii.eqb Bool.eqb] in Hs, Hp.
    split; evaluate_cell; rewrite Hs; evaluate_cell; rewrite Hf; evaluate_cell;
      rewrite Hp; reflexivity.
Qed.

(** ** What a completed run prints *)

Lemma run_reports (w : world) : Report.reports w (run w).
Proof.
  unfold Report.reports. RunFacts.evaluate. repeat RunFacts.run_step.
  all: try exact I.
  do 4 eexists. repeat split; reflexivity.
Qed.

(** X11.  In a run that completes, the two counts printed by cell 17 are the
    numbers of rows of the two data frames that cell 18 writes; so, when no
    field of a data frame holds a newline, the count printed is the number
    of lines of the file. *)
Theorem printed_counts_are_line_counts (w : world) (e : env) :
  snd (run w) = Ok e ->
  exists train_data eval_data train_csv eval_csv,
    lookup "train_data" e = Some (Frame train_data) /\
    lookup "eval_data" e = Some (Frame eval_data) /\
    files (fst (run w))
    = [ ("data/train_data.csv", train_csv); ("data/eval_data.csv", eval_csv) ] /\
    In (paste0 [RChr "Training instances count: ";
                RInt (Z.of_nat (Csv.nrow train_data))])
       (console (fst (run w))) /\
    In (paste0 [RChr "Evaluation instances count: ";
                RInt (Z.of_nat (Csv.nrow eval_data))])
       (console (fst (run w))) /\
    (Csv.one_line_fields (format_double w) train_data = true ->
     List.length (Csv.lines train_csv) = Csv.nrow train_data) /\
    (Csv.one_line_fields (format_double w) eval_data = true ->
     List.length (Csv.lines eval_csv) = Csv.nrow eval_data).
Proof.
  intros Hrun.
  pose proof (RunFacts.run_agrees w) as Ha. pose proof (run_reports w) as Hr.
  unfold agrees in Ha. unfold Report.reports in Hr.
  destruct (run w) as [l r]. cbn [fst snd] in *. subst r.
  destruct Ha as (_ & _ & _ & _ & _ & dt & de & Hdt & Hde & Ht & He & Hfiles).
  destruct Hr as (dt' & de' & status & output & Hdt' & Hde' & _ & Hconsole).
  rewrite Hdt in Hdt'. rewrite Hde in Hde'.
  injection Hdt' as <-. injection Hde' as <-.
  exists dt, de. do 2 eexists.
  split; [exact Ht|]. split; [exact He|]. split; [exact Hfiles|].
  rewrite Hconsole.
  split; [simpl; tauto|]. split; [simpl; tauto|].
  split; intros Hone;
    rewrite (CsvFacts.lines_write_table _ _ "," eq_refl Hone);
    apply length_map.
Qed.

Lemma printed_counts_are_line_counts_witness :
  exists train_csv eval_csv,
    files (fst (run Sample.sample_world))
    = [ ("data/train_data.csv", train_csv); ("data/eval_data.csv", eval_csv) ] /\
    In "Training instances count: 1" (console (fst (run Sample.sample_world))) /\
    In "Evaluation instances count: 2" (console (fst (run Sample.sample_world))) /\
    List.length (Csv.lines train_csv) = 1%nat /\
    List.length (Csv.lines eval_csv) = 2%nat.
Proof.
  destruct (run Sample.sample_world) as [l [e|c]] eqn:Hrun.
  - destruct (printed_counts_are_line_counts Sample.sample_world e)
      as (dt & de & tcsv & ecsv & Ht & He & Hfiles & Hpt & Hpe & Hlt & Hle).
    { now rewrite Hrun. }
    rewrite Hrun in Hfiles, Hpt, Hpe. cbn [fst] in Hfiles, Hpt, Hpe.
    pose proof (RunFacts.run_agrees Sample.sample_world) as Ha.
    unfold agrees in Ha. rewrite Hrun in Ha.
    destruct Ha as (_ & _ & _ & _ & _ & dt' & de' & Hdt & Hde & Ht' & He' & _).
    rewrite Ht in Ht'. rewrite He in He'.
    injection Ht' as <-. injection He' as <-.
    vm_compute in Hdt. vm_compute in Hde.
    injection Hdt as <-. injection Hde as <-.
    exists tcsv, ecsv. split; [exact Hfiles|].
    split; [exact Hpt|]. split; [exact Hpe|].
    split; [exact (Hlt eq_refl) | exact (Hle eq_refl)].
  - exfalso. apply (f_equal snd) in Hrun. vm_compute in Hrun. discriminate.
Defined.

(** ** Cell 5, and cell 16 after it *)

Lemma cell_5_cases (e : env) (w : world) (i : nat) (l : log) (p : string) :
  lookup "PROJECT_ID" e = Some (Atom (RChr p)) ->
  lookup "sql_query" e = Some (Atom (RChr sql_query_template)) ->
  match cell_5 e w i l with
  | (l', r) =>
      (calls l', outcome r)
      = (let (t, o) := until_error w (Report.query_calls i p) in (calls l ++ t, o)) /\
      console l' = console l /\ files l' = files l /\
      match r with
      | Stop _ => True
      | Ok e' =>
          lookup "sql_query" e' = Some (Atom (RChr query_10000)) /\
          lookup "PROJECT_ID" e' = Some (Atom (RChr p)) /\
          exists natality_data,
            table_download w query_10000 = inr natality_data /\
            lookup "natality_data" e' = Some (Frame natality_data)
      end
  end.
Proof.
  intros Hp Hs.
  cbv beta iota delta [lookup String.eqb Ascii.eqb Bool.eqb] in Hp, Hs.
  cbv beta iota zeta delta
    [cell_5 bind ret stop external signalled need_atom need_chr
     bq_project_query bq_table_download r_sprintf assign lookup log_call
     String.eqb Ascii.eqb Bool.eqb andb negb
     calls console files fst snd outcome
     until_error raised Report.query_calls].
  repeat cell_step Hp Hs RunFacts.sprintf_template.
  all: rewrite <- ?app_assoc; repeat split; try reflexivity.
  all: try exact Hp.
  eexists. split; reflexivity.
Qed.

Lemma canonical_cells :
  canonical
  = firstn 4 canonical ++ Report.query_calls 5 project
    ++ firstn 18 (skipn 6 canonical) ++ Report.split_calls 16 project
    ++ skipn 28 canonical.
Proof. vm_compute. reflexivity. Qed.

(** C5.  [sprintf(sql_query, sample_size)] runs twice on the same variable.
    In cell 5 it turns the template into the query with [LIMIT 10000], which
    is the query the cell sends and the value it leaves in [sql_query].  That
    text has no placeholder left, so that the [sprintf] of cell 16 returns it
    unchanged: run on the variables that cell 5 leaves, cell 16 sends the two
    split queries built around this very text and leaves [sql_query] as it
    found it.  (Cell 16 does substitute by itself: run on the template, it
    sends the same two queries.)  Each cell stops at the first of its calls
    that fails.  In the notebook as a whole, the calls of cell 5 and of
    cell 16 are these, in every run. *)
Theorem second_sprintf_changes_nothing (e : env) (w : world) (l : log)
    (p : string) :
  lookup "PROJECT_ID" e = Some (Atom (RChr p)) ->
  lookup "sql_query" e = Some (Atom (RChr sql_query_template)) ->
  let first := cell_5 e w 5%nat l in
  sprintf sql_query_template [RNum 10000] = Some query_10000 /\
  query_10000 = (template_head ++ "10000" ++ template_tail)%string /\
  placeholders query_10000 = 0%nat /\
  sprintf query_10000 [RNum 10000] = Some query_10000 /\
  train_query
  = ("SELECT * FROM ( " ++ query_10000
     ++ " ) WHERE MOD(CAST(key AS INT64), 100) <= 75")%string /\
  eval_query
  = ("SELECT * FROM ( " ++ query_10000
     ++ " ) WHERE MOD(CAST(key AS INT64), 100) > 75")%string /\
  calls (fst first)
  = calls l ++ fst (until_error w (Report.query_calls 5%nat p)) /\
  outcome (snd first) = snd (until_error w (Report.query_calls 5%nat p)) /\
  (forall e5, snd first = Ok e5 ->
     let second := cell_16 e5 w 16%nat (fst first) in
     lookup "sql_query" e5 = Some (Atom (RChr query_10000)) /\
     calls (fst second)
     = calls (fst first) ++ fst (until_error w (Report.split_calls 16%nat p)) /\
     outcome (snd second) = snd (until_error w (Report.split_calls 16%nat p)) /\
     forall e16, snd second = Ok e16 ->
       lookup "sql_query" e16 = Some (Atom (RChr query_10000)) /\
       lookup "train_query" e16 = Some (Atom (RChr train_query)) /\
       lookup "eval_query" e16 = Some (Atom (RChr eval_query))) /\
  calls (fst (cell_16 e w 16%nat l))
  = calls l ++ fst (until_error w (Report.split_calls 16%nat p)) /\
  (calls (fst (run w)), outcome (snd (run w))) = until_error w canonical /\
  (exists before between after,
     canonical
     = before ++ Report.query_calls 5%nat project
       ++ between ++ Report.split_calls 16%nat project ++ after) /\
  (forall e', snd (run w) = Ok e' ->
     lookup "sql_query" e' = Some (Atom (RChr query_10000)) /\
     lookup "train_query" e' = Some (Atom (RChr train_query)) /\
     lookup "eval_query" e' = Some (Atom (RChr eval_query))).
Proof.
  intros Hp Hs first.
  split; [exact RunFacts.sprintf_template|].
  split; [reflexivity|].
  split; [apply TemplateFacts.placeholders_plain; vm_compute; reflexivity|].
  split; [exact RunFacts.sprintf_query|].
  split; [reflexivity|]. split; [reflexivity|].
  pose proof (cell_5_cases e w 5%nat l p Hp Hs) as H5. fold first in H5.
  destruct first as [l5 r5]. cbn [fst snd].
  destruct H5 as (Hc5 & _ & _ & Hr5).
  destruct (until_error w (Report.query_calls 5%nat p)) as [t5 o5].
  injection Hc5 as Hcalls5 Hout5. cbn [fst snd].
  split; [exact Hcalls5|]. split; [exact Hout5|].
  split.
  { intros e5 ->. destruct Hr5 as (Hs5 & Hp5 & _). pose proof (cell_16_cases e5 w 16%nat l5 p query_10000 Hp5 Hs5
                  RunFacts.sprintf_query) as H16.
    destruct (cell_16 e5 w 16%nat l5) as [l16 r16]. cbn [fst snd].
    destruct H16 as (Hc16 & _ & _ & Hr16).
    destruct (until_error w (Report.split_calls 16%nat p)) as [t16 o16].
    injection Hc16 as Hcalls16 Hout16. cbn [fst snd].
    split; [exact Hs5|]. split; [exact Hcalls16|]. split; [exact Hout16|].
    intros e16 ->. destruct Hr16 as (Hq & Ht & He & _). auto. }
  split.
  { pose proof (cell_16_cases e w 16%nat l p sql_query_template Hp Hs
                  RunFacts.sprintf_template) as H16.
    destruct (cell_16 e w 16%nat l) as [l16 r16]. cbn [fst].
    destruct H16 as (Hc16 & _).
    destruct (until_error w (Report.split_calls 16%nat p)) as [t16 o16].
    now injection Hc16 as Hcalls16 _. }
  split; [exact (OrderFacts.run_until_error w)|].
  split; [do 3 eexists; exact canonical_cells|].
  intros e' He'. now destruct (OrderFacts.run_completed w e' He') as (_ & H).
Qed.

Lemma second_sprintf_changes_nothing_witness :
  let e := assign "sql_query" (Atom (RChr sql_query_template))
             (assign "PROJECT_ID" (Atom (RChr project)) []) in
  let first := cell_5 e ideal 5%nat empty_log in
  calls (fst first) = Report.query_calls 5%nat project /\
  outcome (snd first) = None /\
  exists e5,
    snd first = Ok e5 /\
    calls (fst (cell_16 e5 ideal 16%nat (fst first)))
    = Report.query_calls 5%nat project ++ Report.split_calls 16%nat project.
Proof.
  intros e first.
  destruct (second_sprintf_changes_nothing e ideal empty_log project
              eq_refl eq_refl)
    as (_ & _ & _ & _ & _ & _ & Hc & Ho & Hnext & _).
  fold first in Hc, Ho, Hnext.
  split; [exact Hc|]. split; [exact Ho|].
  eexists. split; [reflexivity|].
  destruct (Hnext _ eq_refl) as (_ & Hc16 & _).
  rewrite Hc16, Hc. reflexivity.
Defined.

End CellFacts.

(* ================================================================== *)
(** * The limit once substituted; the shape of a CSV record; the flags *)
(* ================================================================== *)

Module ShapeFacts.
Import R Csv Shape.
#[local] Open Scope list_scope.

(** X12.  Whatever value the first [sprintf] puts into the template, as long
    as its text holds no percent sign, the query obtained has no placeholder
    left and every later [sprintf] on it returns it unchanged: the limit can
    only be set once. *)
Theorem first_substitution_is_final (v : rvalue) (args : list rvalue) (q : string) :
  mentions "%" (as_character v) = false ->
  sprintf Notebook.sql_query_template (v :: args) = Some q ->
  q = (Trace.template_head ++ as_character v ++ Trace.template_tail)%string /\
  placeholders q = 0%nat /\
  forall later, sprintf q later = Some q.
Proof.
  intros Hv Hq. rewrite TemplateFacts.sprintf_template_any in Hq.
  injection Hq as <-.
  assert (Hplain : mentions "%"
            (Trace.template_head ++ as_character v ++ Trace.template_tail)%string
            = false).
  { rewrite !CsvFacts.mentions_append, Hv,
      TemplateFacts.template_head_plain, TemplateFacts.template_tail_plain.
    reflexivity. }
  split; [reflexivity|].
  split; [now apply TemplateFacts.placeholders_plain|].
  intros later. now apply TemplateFacts.sprintf_plain.
Qed.

Lemma first_substitution_is_final_witness :
  exists q,
    sprintf Notebook.sql_query_template [RNum 50000] = Some q /\
    sprintf q [RNum 10000] = Some q.
Proof.
  destruct (sprintf Notebook.sql_query_template [RNum 50000]) as [q|] eqn:Hq.
  - exists q. split; trivial.
    now apply (first_substitution_is_final (RNum 50000) [] q).
  - exfalso. rewrite TemplateFacts.sprintf_template_any in Hq. discriminate.
Defined.

(** ** Commas in a record *)

Lemma append_assoc (a b c : string) :
  ((a ++ b) ++ c)%string = (a ++ b ++ c)%string.
Proof. induction a as [|k a IH]; simpl; now rewrite ?IH. Qed.

Lemma occurrences_append (c : ascii) (a b : string) :
  occurrences c (a ++ b)%string = (occurrences c a + occurrences c b)%nat.
Proof.
  induction a as [|k a IH]; simpl; trivial.
  destruct (Ascii.eqb k c); simpl; now rewrite IH.
Qed.

Lemma absent_never_occurs (c : ascii) (s : string) :
  mentions c s = false -> occurrences c s = 0%nat.
Proof.
  induction s as [|k s IH]; simpl; trivial.
  intros H. apply orb_false_elim in H as [-> Hs]. auto.
Qed.

Lemma digit_not_comma (c : ascii) :
  BigQuery.is_digit c = true -> Ascii.eqb c "," = false.
Proof.
  destruct c as [[|] [|] [|] [|] [|] [|] [|] [|]]; vm_compute; congruence.
Qed.

Lemma digit_not_quote (c : ascii) :
  BigQuery.is_digit c = true -> Ascii.eqb c double_quote = false.
Proof.
  destruct c as [[|] [|] [|] [|] [|] [|] [|] [|]]; vm_compute; congruence.
Qed.

Lemma digits_lack_comma (s : string) :
  BigQuery.all_digits s = true -> mentions "," s = false.
Proof.
  induction s as [|c s IH]; simpl; trivial.
  intros H. apply andb_prop in H as [Hc Hs].
  now rewrite (digit_not_comma c Hc), (IH Hs).
Qed.

(** Nothing is escaped in a string of digits. *)
Lemma escape_digits (s : string) :
  BigQuery.all_digits s = true -> escape s = s.
Proof.
  induction s as [|c s IH]; simpl; trivial.
  intros H. apply andb_prop in H as [Hc Hs].
  now rewrite (digit_not_quote c Hc), (IH Hs).
Qed.

Lemma integer_lacks_comma (n : Z) :
  mentions "," (NilZero.string_of_int (Z.to_int n)) = false.
Proof.
  destruct (Z.to_int n) as [d|d]; simpl;
    apply digits_lack_comma, SplitFacts.all_digits_numeral.
Qed.

Lemma key_digits (z : Z) :
  0 <= z -> BigQuery.all_digits (BigQuery.CAST_INT64_AS_STRING z) = true.
Proof.
  intros Hz. unfold BigQuery.CAST_INT64_AS_STRING.
  destruct (SplitFacts.to_uint_nonneg z Hz) as (d & -> & _ & _).
  apply SplitFacts.all_digits_numeral.
Qed.

Section Record.

Variable format_double : float -> string.

(** R writes a number with a decimal point, never with a comma. *)
Hypothesis format_lacks_comma :
  forall x, mentions "," (format_double x) = false.

Lemma plain_field_lacks_comma (v : value) :
  (forall s, v <> Chr (Some s)) ->
  occurrences "," (field format_double v) = 0%nat.
Proof.
  intros Hv. apply absent_never_occurs.
  destruct v as [[[|]|]|[n|]|[x|]|[s|]]; unfold field; trivial.
  - apply integer_lacks_comma.
  - now destruct (Hv s).
Qed.

(** X13.  A record of a split file has eight fields: on a row whose key is
    the numeral of a non-negative INT64, the text written holds exactly
    seven commas, and it ends with the key between double quotes, written as
    it is. *)
Theorem record_has_eight_fields (b : BigQuery.birth) (z : Z) :
  0 <= z <= BigQuery.INT64_MAX ->
  BigQuery.key b = Some (BigQuery.CAST_INT64_AS_STRING z) ->
  let text := record_text format_double false "," 0 (birth_values b) in
  occurrences "," text = 7%nat /\
  exists front,
    occurrences "," front = 6%nat /\
    text = (front ++ ","
            ++ String double_quote
                 (BigQuery.CAST_INT64_AS_STRING z ++ String double_quote ""))%string.
Proof.
  intros [Hz _] Hk text.
  pose proof (key_digits z Hz) as Hd.
  assert (Hq : quoted (BigQuery.CAST_INT64_AS_STRING z)
               = String double_quote
                   (BigQuery.CAST_INT64_AS_STRING z ++ String double_quote "")%string)
    by (unfold quoted; now rewrite escape_digits).
  assert (Hfront :
    occurrences ","
      (String.concat "," (map (field format_double)
                            (firstn 7 (birth_values b)))) = 6%nat).
  { unfold birth_values. cbn [firstn map String.concat].
    rewrite !occurrences_append.
    rewrite !plain_field_lacks_comma by (intros s; discriminate).
    reflexivity. }
  assert (Htext :
    text = (String.concat "," (map (field format_double)
                                 (firstn 7 (birth_values b)))
            ++ "," ++ quoted (BigQuery.CAST_INT64_AS_STRING z))%string).
  { unfold text, record_text, birth_values. rewrite Hk.
    cbn [firstn map String.concat List.app field].
    now rewrite !append_assoc. }
  split.
  - rewrite Htext, !occurrences_append, Hfront, Hq. simpl.
    rewrite occurrences_append, (absent_never_occurs _ _ (digits_lack_comma _ Hd)).
    reflexivity.
  - eexists. split; [exact Hfront|]. now rewrite Htext, Hq.
Qed.

End Record.

Lemma record_has_eight_fields_witness :
  let b := nth 1 Sample.sample_rows Sample.blank in
  let text := record_text Sample.sample_cast false "," 0 (birth_values b) in
  occurrences "," text = 7%nat /\
  exists front,
    occurrences "," front = 6%nat /\
    text = (front ++ "," ++ String double_quote ("75" ++ String double_quote ""))%string.
Proof.
  intros b.
  apply (record_has_eight_fields Sample.sample_cast
           (fun x => ltac:(unfold Sample.sample_cast;
                           destruct (PrimFloat.ltb x 7); reflexivity))
           b 75).
  - unfold BigQuery.INT64_MAX. lia.
  - reflexivity.
Defined.

(** ** The flags of the command template *)

(** X14.  The command of the manifest is [python -m trainer.task] followed,
    for each placeholder in turn, by the flag named after it (hyphens for
    underscores) and the placeholder itself, and by nothing else: every
    parameter goes to the flag of its own name. *)
Theorem each_parameter_feeds_its_flag :
  words MLproject.command
  = ["python"; "-m"; "trainer.task"]
    ++ flat_map (fun name => [flag_of name; placeholder name])
                (MLproject.fields MLproject.command) /\
  forall name, In name MLproject.declared ->
    exists before after,
      words MLproject.command
      = before ++ flag_of name :: placeholder name :: after.
Proof.
  assert (Hw : words MLproject.command
               = ["python"; "-m"; "trainer.task"]
                 ++ flat_map (fun name => [flag_of name; placeholder name])
                             (MLproject.fields MLproject.command))
    by (vm_compute; reflexivity).
  split; [exact Hw|].
  intros name Hin. rewrite Hw, ManifestFacts.command_fields.
  unfold MLproject.declared, MLproject.parameters in Hin. simpl in Hin.
  cbn [flat_map List.app].
  repeat (destruct Hin as [<-|Hin];
          [ match goal with
            | |- exists before after, ?l = _ =>
                first [ exists (firstn 3 l), (skipn 5 l); reflexivity
                      | exists (firstn 5 l), (skipn 7 l); reflexivity
                      | exists (firstn 7 l), (skipn 9 l); reflexivity
                      | exists (firstn 9 l), (skipn 11 l); reflexivity
                      | exists (firstn 11 l), (skipn 13 l); reflexivity
                      | exists (firstn 13 l), (skipn 15 l); reflexivity
                      | exists (firstn 15 l), (skipn 17 l); reflexivity
                      | exists (firstn 17 l), (skipn 19 l); reflexivity ]
            end
          | ]).
  contradiction.
Qed.

End ShapeFacts.
